(** * Image compressor / converter: a shallow embedding of the core engine

    Source files embedded here:
    - [src/core/format_handler.py]  ([generate_unique_filename], [FormatHandler])
    - [src/core/compression_engine.py]  ([CompressionEngine])
    - [src/utils/history_manager.py]  ([HistoryManager])

    Python values are modelled as follows.
    - [str] is [string]; all characters the code inspects (path separators,
      dots, the extensions of the format table) are ASCII, and bytes above 127
      are carried through unchanged by [lower]/[upper].
    - [int] is [Z]; [float] is the kernel's binary64 [float], except inside
      Pillow's [thumbnail], where a binary64 value is the rational it denotes
      and every operation rounds to the nearest value of 53 significant bits
      ([Module Binary64]).
    - a result dictionary is a [gmap string pyval].
    - the file system is a finite map from paths to file contents, threaded
      explicitly together with the clock ([world]).
    - exceptions are values of an error monad; only the text [str(e)] is kept.
    - Pillow, ReportLab and Wand are outside the repository: their codecs are
      an interface ([Backend]); the pieces of Pillow whose behaviour the engine
      relies on (modes, sizes, [thumbnail], [paste]) are written out in
      [Module PIL]. *)

From Stdlib Require Import ZArith QArith Qround Qabs Qpower Lqa Floats Uint63 Ascii String DecimalString.
From Stdlib Require Qcanon.
From Stdlib.Strings Require Import Byte.
From stdpp Require Import base strings gmap list.
From Equations Require Import Equations.

Set Warnings "-register-all".

Open Scope string_scope.
Open Scope Z_scope.

(** ** Python strings *)

Module PyStr.

Definition lower_ascii (c : ascii) : ascii :=
  let n := N_of_ascii c in
  if ((65 <=? n) && (n <=? 90))%N then ascii_of_N (n + 32) else c.

Definition upper_ascii (c : ascii) : ascii :=
  let n := N_of_ascii c in
  if ((97 <=? n) && (n <=? 122))%N then ascii_of_N (n - 32) else c.

Fixpoint map_chars (f : ascii -> ascii) (s : string) : string :=
  match s with
  | EmptyString => EmptyString
  | String c s' => String (f c) (map_chars f s')
  end.

(** [s.lower()] and [s.upper()] *)
Definition lower : string -> string := map_chars lower_ascii.
Definition upper : string -> string := map_chars upper_ascii.

(** [s.rfind(c)] for a one-character [c]: the last index, or [-1] *)
Fixpoint rfind_from (c : ascii) (s : string) (i last : Z) : Z :=
  match s with
  | EmptyString => last
  | String a s' => rfind_from c s' (i + 1) (if Ascii.eqb a c then i else last)
  end.

Definition rfind (c : ascii) (s : string) : Z := rfind_from c s 0 (-1).

(** [s[:k]] and [s[k:]] for [0 <= k] *)
Fixpoint take (n : nat) (s : string) : string :=
  match n, s with
  | S n', String c s' => String c (take n' s')
  | _, _ => EmptyString
  end.

Fixpoint drop (n : nat) (s : string) : string :=
  match n, s with
  | S n', String _ s' => drop n' s'
  | _, _ => s
  end.

Definition slice_to (s : string) (k : Z) : string := take (Z.to_nat k) s.
Definition slice_from (s : string) (k : Z) : string := drop (Z.to_nat k) s.

(** [s[k:k+1]] *)
Definition char_at (s : string) (k : Z) : string := take 1 (drop (Z.to_nat k) s).

Definition startswith (p s : string) : bool := String.prefix p s.

Fixpoint last_char (s : string) : option ascii :=
  match s with
  | EmptyString => None
  | String c EmptyString => Some c
  | String _ s' => last_char s'
  end.

Definition endswith_char (c : ascii) (s : string) : bool :=
  match last_char s with
  | Some a => Ascii.eqb a c
  | None => false
  end.

(** [s.lstrip(c)] and [s.rstrip(c)] for a one-character set *)
Fixpoint lstrip (c : ascii) (s : string) : string :=
  match s with
  | String a s' => if Ascii.eqb a c then lstrip c s' else s
  | EmptyString => EmptyString
  end.

Fixpoint rstrip (c : ascii) (s : string) : string :=
  match s with
  | EmptyString => EmptyString
  | String a s' =>
      match rstrip c s' with
      | EmptyString => if Ascii.eqb a c then EmptyString else String a EmptyString
      | r => String a r
      end
  end.

Fixpoint all_char (c : ascii) (s : string) : bool :=
  match s with
  | EmptyString => true
  | String a s' => Ascii.eqb a c && all_char c s'
  end.

(** [s.replace(old, new)]: every non-overlapping occurrence, left to right.
    [skip] counts the characters of a matched occurrence still to be passed.
    For an empty [old] Python inserts [new] before every character and at
    the end. *)
Fixpoint replace_from (old new : string) (skip : nat) (s : string) : string :=
  match s with
  | EmptyString => EmptyString
  | String c s' =>
      match skip with
      | S k => replace_from old new k s'
      | O =>
          if String.prefix old s
          then new ++ replace_from old new (String.length old - 1) s'
          else String c (replace_from old new O s')
      end
  end.

Fixpoint interleave (new s : string) : string :=
  match s with
  | EmptyString => new
  | String c s' => new ++ String c (interleave new s')
  end.

Definition replace (s old new : string) : string :=
  match old with
  | EmptyString => interleave new s
  | _ => replace_from old new O s
  end.

(** [str(n)] for an [int] *)
Definition of_int (n : Z) : string := NilZero.string_of_int (Z.to_int n).

Fixpoint contains_char (c : ascii) (s : string) : bool :=
  match s with
  | EmptyString => false
  | String a s' => Ascii.eqb a c || contains_char c s'
  end.

(** One lower-case hexadecimal digit *)
Definition hex_digit (n : N) : ascii :=
  if (n <? 10)%N then ascii_of_N (48 + n) else ascii_of_N (87 + n).

(** The text [repr] writes for one character inside the quotes [quote]:
    the quote and the backslash get a backslash, tab, newline and carriage
    return their letter, every other control character its [\xNN]. *)
Definition repr_char (quote c : ascii) : string :=
  let n := N_of_ascii c in
  if Ascii.eqb c quote || Ascii.eqb c "092"%char then String "092"%char (String c EmptyString)
  else if (n =? 9)%N then String "092"%char "t"
  else if (n =? 10)%N then String "092"%char "n"
  else if (n =? 13)%N then String "092"%char "r"
  else if ((n <? 32) || (n =? 127))%N
  then String "092"%char (String "x"%char (String (hex_digit (n / 16))
                                  (String (hex_digit (n mod 16)) EmptyString)))
  else String c EmptyString.

Fixpoint repr_chars (quote : ascii) (s : string) : string :=
  match s with
  | EmptyString => EmptyString
  | String c s' => repr_char quote c ++ repr_chars quote s'
  end.

(** [repr(s)]: in apostrophes, or in double quotes when [s] has an
    apostrophe and no double quote.  Bytes above 127 stand for printable
    characters and are kept. *)
Definition repr (s : string) : string :=
  let quote : ascii :=
    if contains_char "039"%char s && negb (contains_char "034"%char s) then "034"%char
    else "039"%char in
  String quote (repr_chars quote s ++ String quote EmptyString).

End PyStr.


(** ** [os.path] (the POSIX flavour, [posixpath] and [genericpath]) *)

Module PosixPath.
Import PyStr.

(** The loop of [genericpath._splitext] that skips the leading dots of the
    file name: [n] is [dotIndex - filenameIndex], the iterations left. *)
Fixpoint splitext_scan (p : string) (dotIndex filenameIndex : Z) (n : nat)
  : string * string :=
  match n with
  | O => (p, slice_to p 0)
  | S n' =>
      if negb (String.eqb (char_at p filenameIndex) ".")
      then (slice_to p dotIndex, slice_from p dotIndex)
      else splitext_scan p dotIndex (filenameIndex + 1) n'
  end.

Definition splitext (p : string) : string * string :=
  let sepIndex := rfind "/" p in
  let dotIndex := rfind "." p in
  if dotIndex >? sepIndex
  then splitext_scan p dotIndex (sepIndex + 1) (Z.to_nat (dotIndex - (sepIndex + 1)))
  else (p, slice_to p 0).

Definition basename (p : string) : string :=
  let i := rfind "/" p + 1 in
  slice_from p i.

Definition dirname (p : string) : string :=
  let i := rfind "/" p + 1 in
  let head := slice_to p i in
  if negb (String.eqb head "") && negb (all_char "/" head)
  then rstrip "/" head
  else head.

(** [os.path.join(a, b)] with one component [b] *)
Definition join (a b : string) : string :=
  if startswith "/" b then b
  else if String.eqb a "" || endswith_char "/" a then a ++ b
  else a ++ "/" ++ b.

End PosixPath.

(** ** The world: file system and clock *)

Abbreviation bytes := (list Byte.byte).

Record world := World {
  files : gmap string bytes;   (* path |-> content of the file there *)
  clock : Z                    (* [int(time.time())], seconds *)
}.

(** [os.path.exists(p)] *)
Definition path_exists (w : world) (p : string) : bool :=
  match files w !! p with
  | Some _ => true
  | None => false
  end.

Definition write_file (w : world) (p : string) (content : bytes) : world :=
  World (<[p := content]> (files w)) (clock w).

(** ** [generate_unique_filename] *)

(** [f"{name}_copy{counter}{ext}"] joined to the directory *)
Definition copy_path (directory name ext : string) (counter : Z) : string :=
  PosixPath.join directory (name ++ "_copy" ++ PyStr.of_int counter ++ ext).

(** [f"{name}_{timestamp}{ext}"] joined to the directory *)
Definition stamped_path (directory name ext : string) (timestamp : Z) : string :=
  PosixPath.join directory (name ++ "_" ++ PyStr.of_int timestamp ++ ext).

(** The [while True] loop, entered with [counter]; it leaves through one of
    its two [return]s, at the latest when [counter] passes 100. *)
Equations? copy_loop (w : world) (directory name ext : string) (counter : Z)
  : string by wf (Z.to_nat (101 - counter)) lt :=
copy_loop w directory name ext counter
  with path_exists w (copy_path directory name ext counter) := {
  | false := copy_path directory name ext counter
  | true with decide (counter + 1 > 100) := {
    | left _ := stamped_path directory name ext (clock w)
    | right _ := copy_loop w directory name ext (counter + 1) } }.
Proof. lia. Qed.

Definition generate_unique_filename (w : world) (output_path : string) : string :=
  if negb (path_exists w output_path) then output_path
  else
    let directory := PosixPath.dirname output_path in
    let filename := PosixPath.basename output_path in
    let '(name, ext) := PosixPath.splitext filename in
    copy_loop w directory name ext 1.

(** ** Python values, results and exceptions *)

Inductive pyval :=
| VNone
| VBool (b : bool)
| VInt (n : Z)
| VFloat (x : float)
| VStr (s : string)
| VSize (width height : Z)       (* a pair of ints such as [img.size] *)
| VList (items : list pyval).

(** A result dictionary: [{"success": True, ...}] *)
Abbreviation dict := (gmap string pyval).

(** Truth value of an object in a condition *)
Definition truthy (v : pyval) : bool :=
  match v with
  | VNone => false
  | VBool b => b
  | VInt n => negb (n =? 0)
  | VFloat x => negb (PrimFloat.eqb x 0%float)
  | VStr s => negb (String.eqb s "")
  | VSize _ _ => true
  | VList items => match items with [] => false | _ => true end
  end.

(** An exception, kept as its text [str(e)] *)
Definition exn := string.

Module PyNum.

(** [float(n)]; exact for [|n| < 2^53], which covers every file size and
    image dimension, and on that range [a / b] below is CPython's correctly
    rounded true division. *)
Definition float_of_int (n : Z) : float :=
  if n <? 0 then PrimFloat.opp (PrimFloat.of_uint63 (Uint63.of_Z (- n)))
  else PrimFloat.of_uint63 (Uint63.of_Z n).

(** [a / b] on ints: raises [ZeroDivisionError] for [b = 0] *)
Definition truediv (a b : Z) : exn + float :=
  if b =? 0 then inl "division by zero"
  else inr (PrimFloat.div (float_of_int a) (float_of_int b)).

End PyNum.

(** ** binary64 arithmetic, rounding written out

    Inside Pillow's [thumbnail] a finite [float] is kept as the rational it
    denotes, and every operation is the exact one followed by [round],
    IEEE 754 round-to-nearest, ties to even, with 53 significant bits.
    The exponent range is left out: no quotient, product or difference of
    image dimensions (integers below [2^63]) overflows or is subnormal. *)

Module Binary64.
Local Open Scope Q_scope.

(** The exponent of the leading bit of a non-zero [q]:
    [2^e <= |q| < 2^(e+1)] *)
Definition ilog2 (q : Q) : Z :=
  let e := (Z.log2 (Z.abs (Qnum q)) - Z.log2 (Zpos (Qden q)))%Z in
  if Qle_bool (2 ^ e) (Qabs q) then e else (e - 1)%Z.

(** The nearest integer, a tie going to the even one *)
Definition nearest_even (q : Q) : Z :=
  let n := Qfloor q in
  match Qcompare (q - inject_Z n) (1 # 2) with
  | Lt => n
  | Gt => (n + 1)%Z
  | Eq => if Z.even n then n else (n + 1)%Z
  end.

(** The nearest binary64 value: the significand is an integer of 53 bits *)
Definition round (q : Q) : Q :=
  let q := Qred q in
  if Qeq_bool q 0 then 0
  else
    let ulp := 2 ^ (ilog2 q - 52) in
    inject_Z (nearest_even (q / ulp)) * ulp.

(** [float(n)] *)
Definition of_int (n : Z) : Q := round (inject_Z n).

(** [a / b] on ints for [b <> 0]: the quotient, rounded once *)
Definition quotient (a b : Z) : Q := round (inject_Z a / inject_Z b).

(** [a / b] on ints *)
Definition truediv (a b : Z) : exn + Q :=
  if (b =? 0)%Z then inl "division by zero"%string else inr (quotient a b).

(** [x * y], [x - y] and [x / y] on floats *)
Definition mul (x y : Q) : Q := round (x * y).
Definition sub (x y : Q) : Q := round (x - y).
Definition div (x y : Q) : exn + Q :=
  if Qeq_bool y 0 then inl "float division by zero"%string
  else inr (round (x / y)).

(** The unit roundoff [2^-53]: the largest relative error of [round] *)
Definition u : Q := 1 # 9007199254740992.

(** The value as a kernel float, for a [q] that is a binary64 value: in
    lowest terms, a numerator below [2^53] over a power of two below [2^63] *)
Definition to_float (q : Q) : float :=
  let q := Qred q in
  PrimFloat.div (PyNum.float_of_int (Qnum q)) (PyNum.float_of_int (Zpos (Qden q))).

End Binary64.

(** ** State and exceptions *)

Inductive outcome (A : Type) :=
| Return (a : A)
| Raise (e : exn).
Arguments Return {A} a.
Arguments Raise {A} e.

Definition M (A : Type) : Type := world -> world * outcome A.

Definition ret {A} (a : A) : M A := fun w => (w, Return a).
Definition raise {A} (e : exn) : M A := fun w => (w, Raise e).

Definition bind {A B} (m : M A) (k : A -> M B) : M B :=
  fun w =>
    match m w with
    | (w', Return a) => k a w'
    | (w', Raise e) => (w', Raise e)
    end.

(** [try: body except Exception as e: handler] *)
Definition try_except {A} (body : M A) (handler : exn -> M A) : M A :=
  fun w =>
    match body w with
    | (w', Raise e) => handler e w'
    | r => r
    end.

(** A computation that cannot touch the world *)
Definition lift {A} (r : exn + A) : M A :=
  match r with
  | inl e => raise e
  | inr a => ret a
  end.

Notation "x <- m ;; k" := (bind m (fun x => k))
  (at level 100, m at next level, right associativity).
Notation "m ;;; k" := (bind m (fun _ => k))
  (at level 100, right associativity).

(** [d[key]] raises [KeyError]; [d.get(key, default)] does not *)
Definition getitem (d : dict) (key : string) : M pyval :=
  match d !! key with
  | Some v => ret v
  | None => raise (PyStr.repr key)
  end.

Definition dict_get (d : dict) (key : string) (default : pyval) : pyval :=
  match d !! key with
  | Some v => v
  | None => default
  end.

(** A callable used for notifications: it returns normally ([None]) or
    raises; what it returns is never used. *)
Definition call (r : option exn) : M unit :=
  match r with
  | None => ret tt
  | Some e => raise e
  end.

(** ** Images *)

(** Pixel data, kept as the Pillow operations that produced it. *)
Inductive raster :=
| Decoded (data : bytes)
| Solid (color : Z * Z * Z)
| Converted (to_mode : string) (adaptive_palette : bool) (src : raster)
| Resampled (to_size : Z * Z) (src : raster)
| LastBand (src : raster)
| Pasted (onto src : raster) (mask : option raster).

Record image := Image {
  im_mode : string;       (* [img.mode] *)
  im_size : Z * Z;        (* [img.size], (width, height) *)
  im_pixels : raster
}.

(** Keyword arguments of [Image.save] *)
Abbreviation params := (list (string * pyval)).

(** ** What lies outside the repository

    The codecs of Pillow (with its AVIF and HEIF plugins, when installed),
    ReportLab, Wand and the operating system.  [None] for [reportlab] or
    [wand] is a failing [import]; [SAVE] is Pillow's registry of encoders by
    format name, so [SAVE "AVIF" = None] is a runtime without that plugin.
    [convert_error from to adaptive] is the [ValueError] of [img.convert]
    from mode [from] to mode [to] (with an adaptive palette or not), [None]
    when Pillow has that conversion. *)
Class Backend := {
  decode : bytes -> exn + (string * (Z * Z));
  convert_error : string -> string -> bool -> option exn;
  SAVE : string -> option (image -> params -> exn + bytes);
  EXTENSION : string -> option string;
  reportlab : option (bytes -> Z * Z -> exn + bytes);
  wand : option (string -> bytes -> exn + bytes);
  creatable : string -> bool;
  round2 : float -> float
}.

Module PIL.
Section WithBackend.
Context `{Backend}.

(** [Image.new(mode, size, color)] *)
Definition new (mode : string) (size : Z * Z) (color : Z * Z * Z) : image :=
  Image mode size (Solid color).

(** [img.convert(mode)] and [img.convert("P", palette=Image.ADAPTIVE)]:
    the image a conversion gives *)
Definition convert (img : image) (mode : string) (adaptive : bool) : image :=
  Image mode (im_size img) (Converted mode adaptive (im_pixels img)).

(** The call itself: Pillow raises for a conversion it does not have *)
Definition try_convert (img : image) (mode : string) (adaptive : bool)
  : exn + image :=
  match convert_error (im_mode img) mode adaptive with
  | Some e => inl e
  | None => inr (convert img mode adaptive)
  end.

(** [img.split()[-1]]: the last band as a grayscale image; a single-band
    image is its own last band. *)
Definition split_last (img : image) : image :=
  if bool_decide (im_mode img ∈ ["1"; "L"; "P"; "I"; "F"]) then img
  else Image "L" (im_size img) (LastBand (im_pixels img)).

(** [background.paste(img, mask=mask)] for images of one size: the result
    keeps the mode and size of [background].  Without a mask every pixel
    of [background] is replaced. *)
Definition paste (background img : image) (mask : option image) : image :=
  Image (im_mode background) (im_size background)
    (Pasted (im_pixels background) (im_pixels img) (im_pixels <$> mask)).

(** [img.resize(size, resample, reducing_gap=...)] with a resampling
    filter other than [NEAREST], as both callers pass [LANCZOS].  An image
    that has the size already is copied.  Modes 1 and P are resized with
    [NEAREST]; LA and RGBA go through their premultiplied modes and an
    inner [resize] without [reducing_gap].  With a [reducing_gap] the
    reduction factors [int(width / size[0] / reducing_gap)] are computed
    first, and at last the resampling itself refuses a size below one.
    [Resampled] stands for the pixels of the whole call. *)
Definition resize (img : image) (size : Z * Z) (reducing_gap : bool)
  : exn + image :=
  if bool_decide (im_size img = size) then inr img
  else
    let resample : exn + image :=
      if (size.1 <? 1) || (size.2 <? 1)
      then inl "height and width must be > 0"
      else inr (Image (im_mode img) size (Resampled size (im_pixels img))) in
    if bool_decide (im_mode img ∈ ["1"; "P"]) then resample
    else if bool_decide (im_mode img ∈ ["LA"; "RGBA"]) then resample
    else if reducing_gap && ((size.1 =? 0) || (size.2 =? 0))
    then inl "division by zero"
    else resample.

(** [max(min(math.floor(number), math.ceil(number), key=key), 1)]; [min]
    keeps the first of two candidates with equal keys. *)
Definition round_aspect (number : Q) (key : Z -> Q) : Z :=
  let lo := Qfloor number in
  let hi := Qceiling number in
  Z.max (if Qle_bool (key lo) (key hi) then lo else hi) 1.

(** [preserve_aspect_ratio()] inside [Image.thumbnail], in binary64 as
    Pillow computes it: [None] when the image already fits. *)
Definition preserve_aspect_ratio (self_size provided_size : Z * Z)
  : exn + option (Z * Z) :=
  let '(width, height) := self_size in
  let '(x, y) := provided_size in
  if (x >=? width) && (y >=? height) then inr None
  else
    match Binary64.truediv width height with
    | inl e => inl e
    | inr aspect =>
        match Binary64.truediv x y with
        | inl e => inl e
        | inr ratio =>
            if Qle_bool aspect ratio then
              inr (Some
                     (round_aspect (Binary64.mul (Binary64.of_int y) aspect)
                        (fun n => Qabs (Binary64.sub aspect
                                          (Binary64.quotient n y))),
                      y))
            else
              match Binary64.div (Binary64.of_int x) aspect with
              | inl e => inl e
              | inr number =>
                  inr (Some
                         (x,
                          round_aspect number
                            (fun n => if n =? 0 then 0%Q
                                      else Qabs (Binary64.sub aspect
                                                   (Binary64.quotient x n)))))
              end
        end
    end.

(** [img.thumbnail(size, resample)], with its default [reducing_gap] of
    2.0; it changes [img] in place, so the caller's image is the one
    returned here.  ([draft], which lets a JPEG decoder deliver a smaller
    image, changes pixels only: the final size is computed before it.) *)
Definition thumbnail (img : image) (size : Z * Z) : exn + image :=
  match preserve_aspect_ratio (im_size img) size with
  | inl e => inl e
  | inr None => inr img
  | inr (Some final_size) =>
      if bool_decide (im_size img = final_size) then inr img
      else resize img final_size true
  end.

(** [Image.open(path)], with the pixel data loaded *)
Definition open (path : string) : M image :=
  fun w =>
    match files w !! path with
    | None =>
        (w, Raise ("[Errno 2] No such file or directory: " ++ PyStr.repr path))
    | Some data =>
        match decode data with
        | inl e => (w, Raise e)
        | inr (mode, size) => (w, Return (Image mode size (Decoded data)))
        end
    end.

(** [img.save(buffer, format=...)] into an [io.BytesIO]: the bytes written *)
Definition save_buffer (img : image) (format : string) (kw : params)
  : exn + bytes :=
  match SAVE (PyStr.upper format) with
  | None => inl (PyStr.repr (PyStr.upper format))
  | Some handler => handler img kw
  end.

(** [img.save(path, format, **kw)]: the file is opened for writing, the
    encoder runs, and when it raises a file this call created is removed
    again (one that was there before stays truncated). *)
Definition save (img : image) (path : string) (format : option string)
  (kw : params) : M unit :=
  fmt <- match format with
         | Some f => ret f
         | None =>
             let ext := PyStr.lower (PosixPath.splitext path).2 in
             match EXTENSION ext with
             | Some f => ret f
             | None => raise ("unknown file extension: " ++ ext)
             end
         end ;;
  match SAVE (PyStr.upper fmt) with
  | None => raise (PyStr.repr (PyStr.upper fmt))
  | Some handler =>
      fun w =>
        if negb (creatable path)
        then (w, Raise ("[Errno 13] Permission denied: " ++ PyStr.repr path))
        else
          match handler img kw with
          | inr data => (write_file w path data, Return tt)
          | inl e =>
              ((if path_exists w path then write_file w path [] else w), Raise e)
          end
  end.

End WithBackend.
End PIL.

(** [os.path.getsize(path)]; the text of an [OSError] ends with the
    [repr] of the path. *)
Definition getsize (path : string) : M Z :=
  fun w =>
    match files w !! path with
    | Some data => (w, Return (Z.of_nat (length data)))
    | None =>
        (w, Raise ("[Errno 2] No such file or directory: " ++ PyStr.repr path))
    end.

(** ** [FormatHandler] *)

Module FormatHandler.

Definition SUPPORTED_FORMATS : list string :=
  [ ".jpg"; ".jpeg"; ".png"; ".gif"; ".bmp"; ".tiff"; ".tif"; ".webp";
    ".ico"; ".ppm"; ".pgm"; ".pbm";
    ".avif"; ".heic"; ".heif";
    ".svg"; ".dds"; ".tga"; ".eps"; ".im";
    ".pdf"; ".psd"; ".icns"; ".fits"; ".msp";
    ".pcx"; ".sgi"; ".spider"; ".xbm"; ".xpm" ].

(** [(255, 255, 255)] *)
Definition white : Z * Z * Z := (255, 255, 255).

Section WithBackend.
Context `{Backend}.

(** Creating and writing a file through a library other than Pillow *)
Definition create_file (path : string) (data : bytes) : M unit :=
  fun w =>
    if creatable path then (write_file w path data, Return tt)
    else (w, Raise ("[Errno 13] Permission denied: " ++ PyStr.repr path)).

(** [unique_path = generate_unique_filename(...)] in the current world *)
Definition unique_filename (output_path : string) : M string :=
  fun w => (w, Return (generate_unique_filename w output_path)).

Definition save_as_pdf (img : image) (output_path : string) (quality : Z)
  : M dict :=
  try_except
    (render <- match reportlab with
               | Some r => ret r
               | None => raise "No module named 'reportlab'"
               end ;;
     unique_path <- unique_filename output_path ;;
     img <- lift (if String.eqb (im_mode img) "RGBA"
                  then PIL.try_convert img "RGB" false else inr img) ;;
     img_buffer <- lift (PIL.save_buffer img "JPEG" [("quality", VInt quality)]) ;;
     let '(img_width, img_height) := im_size img in
     (* scale = min(page_width / img_width, page_height / img_height) *)
     if (img_width =? 0) || (img_height =? 0)
     then raise "float division by zero"
     else
       pdf <- lift (render img_buffer (im_size img)) ;;
       create_file unique_path pdf ;;;
       ret ({[ "success" := VBool true;
               "output_path" := VStr unique_path;
               "message" := VStr "✅ Guardado como PDF" ]} : dict))
    (fun e =>
       ret {[ "success" := VBool false;
              "error" := VStr e;
              "message" := VStr ("❌ Error creando PDF: " ++ e) ]}).

(** [save_as_svg] and [save_as_eps] differ in the target format only;
    [target] is ["svg"] or ["eps"]. *)
Definition save_with_wand (target : string) (img : image) (output_path : string)
  : M dict :=
  try_except
    (convert <- match wand with
                | Some c => ret c
                | None => raise "No module named 'wand'"
                end ;;
     unique_path <- unique_filename output_path ;;
     img_buffer <- lift (PIL.save_buffer img "PNG" []) ;;
     out <- lift (convert target img_buffer) ;;
     create_file unique_path out ;;;
     ret ({[ "success" := VBool true;
             "output_path" := VStr unique_path;
             "message" := VStr ("✅ Guardado como " ++ PyStr.upper target) ]} : dict))
    (fun e =>
       ret {[ "success" := VBool false;
              "error" := VStr e;
              "message" := VStr ("❌ Error creando " ++ PyStr.upper target ++ ": " ++ e) ]}).

Definition save_as_svg := save_with_wand "svg".
Definition save_as_eps := save_with_wand "eps".

(** The preparation for a JPEG encoder, as written in [save_image_universal]
    (lines 269-276) and again in [estimate_compressed_size] (lines 201-208):
    the image these lines hand on. *)
Definition flatten_for_jpeg (img : image) : image :=
  if bool_decide (im_mode img ∈ ["RGBA"; "LA"; "P"]) then
    let background := PIL.new "RGB" (im_size img) white in
    let img := if String.eqb (im_mode img) "P"
               then PIL.convert img "RGBA" false else img in
    PIL.paste background img
      (if String.eqb (im_mode img) "RGBA" then Some (PIL.split_last img) else None)
  else if negb (String.eqb (im_mode img) "RGB") then PIL.convert img "RGB" false
  else img.

(** The same lines as they run: a conversion Pillow does not have raises. *)
Definition try_flatten_for_jpeg (img : image) : exn + image :=
  if bool_decide (im_mode img ∈ ["RGBA"; "LA"; "P"]) then
    let background := PIL.new "RGB" (im_size img) white in
    match (if String.eqb (im_mode img) "P"
           then PIL.try_convert img "RGBA" false else inr img) with
    | inl e => inl e
    | inr img =>
        inr (PIL.paste background img
               (if String.eqb (im_mode img) "RGBA"
                then Some (PIL.split_last img) else None))
    end
  else if negb (String.eqb (im_mode img) "RGB")
  then PIL.try_convert img "RGB" false
  else inr img.

(** The preparation for the PNG encoder (lines 280-281; lines 364-365 for
    the formats that are redirected to PNG): the image handed on. *)
Definition prepare_for_png (img : image) : image :=
  if negb (bool_decide (im_mode img ∈ ["RGBA"; "RGB"; "L"]))
  then PIL.convert img "RGBA" false
  else img.

(** The same lines as they run *)
Definition try_prepare_for_png (img : image) : exn + image :=
  if negb (bool_decide (im_mode img ∈ ["RGBA"; "RGB"; "L"]))
  then PIL.try_convert img "RGBA" false
  else inr img.

(** The [except] branch of the AVIF and HEIC/HEIF cases *)
Definition fallback_to_png (img : image) (unique_path ext message : string)
  : M (option dict) :=
  let png_path := PyStr.replace unique_path ext ".png" in
  png_path <- unique_filename png_path ;;
  PIL.save img png_path (Some "PNG") [("optimize", VBool true)] ;;;
  ret (Some ({[ "success" := VBool true;
                "fallback" := VBool true;
                "output_path" := VStr png_path;
                "message" := VStr message ]} : dict)).

(** The [if]/[elif] chain over the extension: [Some d] is a [return d]
    inside the chain, [None] falls through to the common [return]. *)
Definition save_by_extension (img : image) (ext unique_path : string)
  (quality : Z) : M (option dict) :=
  if bool_decide (ext ∈ [".jpg"; ".jpeg"]) then
    img <- lift (try_flatten_for_jpeg img) ;;
    PIL.save img unique_path (Some "JPEG")
      [("quality", VInt quality); ("optimize", VBool true);
       ("progressive", VBool true)] ;;;
    ret None
  else if String.eqb ext ".png" then
    img <- lift (try_prepare_for_png img) ;;
    PIL.save img unique_path (Some "PNG")
      [("optimize", VBool true); ("compress_level", VInt 9)] ;;;
    ret None
  else if String.eqb ext ".webp" then
    PIL.save img unique_path (Some "WEBP")
      [("quality", VInt quality); ("optimize", VBool true); ("method", VInt 6)] ;;;
    ret None
  else if String.eqb ext ".gif" then
    img <- lift (if negb (String.eqb (im_mode img) "P")
                 then PIL.try_convert img "P" true else inr img) ;;
    PIL.save img unique_path (Some "GIF") [("optimize", VBool true)] ;;;
    ret None
  else if bool_decide (ext ∈ [".tiff"; ".tif"]) then
    PIL.save img unique_path (Some "TIFF")
      [("compression", VStr "tiff_lzw"); ("optimize", VBool true)] ;;;
    ret None
  else if String.eqb ext ".bmp" then
    img <- lift (if negb (bool_decide (im_mode img ∈ ["RGB"; "L"]))
                 then PIL.try_convert img "RGB" false else inr img) ;;
    PIL.save img unique_path (Some "BMP") [] ;;;
    ret None
  else if String.eqb ext ".ico" then
    PIL.save img unique_path (Some "ICO")
      [("sizes", VList [VSize 16 16; VSize 32 32; VSize 48 48; VSize 64 64])] ;;;
    ret None
  else if bool_decide (ext ∈ [".ppm"; ".pgm"; ".pbm"]) then
    img <- lift
      (if String.eqb ext ".pgm" && negb (String.eqb (im_mode img) "L")
       then PIL.try_convert img "L" false
       else if String.eqb ext ".pbm" && negb (String.eqb (im_mode img) "1")
       then PIL.try_convert img "1" false
       else if String.eqb ext ".ppm" && negb (String.eqb (im_mode img) "RGB")
       then PIL.try_convert img "RGB" false
       else inr img) ;;
    PIL.save img unique_path None [] ;;;
    ret None
  else if String.eqb ext ".tga" then
    img <- lift (if negb (bool_decide (im_mode img ∈ ["RGB"; "RGBA"]))
                 then PIL.try_convert img "RGBA" false else inr img) ;;
    PIL.save img unique_path (Some "TGA") [] ;;;
    ret None
  else if String.eqb ext ".pcx" then
    img <- lift (if negb (bool_decide (im_mode img ∈ ["RGB"; "L"]))
                 then PIL.try_convert img "RGB" false else inr img) ;;
    PIL.save img unique_path (Some "PCX") [] ;;;
    ret None
  else if String.eqb ext ".xbm" then
    img <- lift (if negb (String.eqb (im_mode img) "1")
                 then PIL.try_convert img "1" false else inr img) ;;
    PIL.save img unique_path (Some "XBM") [] ;;;
    ret None
  else if String.eqb ext ".avif" then
    try_except
      (PIL.save img unique_path (Some "AVIF") [("quality", VInt quality)] ;;;
       ret None)
      (fun _ => fallback_to_png img unique_path ext
                  "⚠️ AVIF no disponible. Convertido a PNG.")
  else if bool_decide (ext ∈ [".heic"; ".heif"]) then
    try_except
      (PIL.save img unique_path (Some "HEIF") [("quality", VInt quality)] ;;;
       ret None)
      (fun _ => fallback_to_png img unique_path ext
                  "⚠️ HEIC/HEIF no disponible. Convertido a PNG.")
  else if bool_decide (ext ∈ [".psd"; ".icns"; ".fits"; ".msp"; ".sgi";
                              ".spider"; ".xpm"; ".dds"; ".im"]) then
    let png_path := PyStr.replace unique_path ext ".png" in
    png_path <- unique_filename png_path ;;
    img <- lift (try_prepare_for_png img) ;;
    PIL.save img png_path (Some "PNG")
      [("optimize", VBool true); ("compress_level", VInt 9)] ;;;
    ret (Some ({[ "success" := VBool true;
                  "fallback" := VBool true;
                  "original_format" := VStr ext;
                  "final_format" := VStr ".png";
                  "output_path" := VStr png_path;
                  "message" := VStr ("⚠️ " ++ PyStr.upper ext
                      ++ " no soportado para escritura. Convertido a PNG.") ]} : dict))
  else
    ret (Some ({[ "success" := VBool false;
                  "error" := VStr ("Formato " ++ ext ++ " no soportado");
                  "message" := VStr ("❌ Formato " ++ PyStr.upper ext
                      ++ " no reconocido") ]} : dict)).

Definition save_image_universal (img : image) (output_path : string)
  (quality : Z) : M dict :=
  try_except
    (let ext := PyStr.lower (PosixPath.splitext output_path).2 in
     if String.eqb ext ".pdf" then save_as_pdf img output_path quality
     else if String.eqb ext ".svg" then save_as_svg img output_path
     else if String.eqb ext ".eps" then save_as_eps img output_path
     else
       unique_path <- unique_filename output_path ;;
       returned <- save_by_extension img ext unique_path quality ;;
       match returned with
       | Some d => ret d
       | None =>
           ret {[ "success" := VBool true;
                  "output_path" := VStr unique_path;
                  "message" := VStr ("✅ Guardado como " ++ PyStr.upper ext) ]}
       end)
    (fun e =>
       ret {[ "success" := VBool false;
              "error" := VStr e;
              "message" := VStr ("❌ Error: " ++ e) ]}).

(** [can_read_format]: [verify] is Pillow's integrity check [img.verify()]
    of the file behind the image, [None] when it passes. *)
Definition can_read_format (verify : bytes -> option exn) (file_path : string)
  : M bool :=
  try_except
    (img <- PIL.open file_path ;;
     call (match im_pixels img with
           | Decoded data => verify data
           | _ => None
           end) ;;;
     ret true)
    (fun _ => ret false).

Definition get_supported_formats : list string := SUPPORTED_FORMATS.

End WithBackend.
End FormatHandler.

(** ** [CompressionEngine] *)

Module CompressionEngine.
Import FormatHandler.

(** [(1 - compressed_size / original_size) * 100 if original_size > 0 else 0]:
    a float, or the int [0]. *)
Definition compression_ratio (compressed_size original_size : Z) : exn + pyval :=
  if original_size >? 0 then
    match PyNum.truediv compressed_size original_size with
    | inl e => inl e
    | inr q =>
        inr (VFloat (PrimFloat.mul (PrimFloat.sub 1%float q) 100%float))
    end
  else inr (VInt 0).

(** The ratio in the words of the specification: [(1 - final/original) * 100],
    and [0] when the original size is [0]. *)
Definition spec_compression_ratio (final_size original_size : Z) : pyval :=
  if original_size =? 0 then VInt 0
  else VFloat (PrimFloat.mul
                 (PrimFloat.sub 1%float
                    (PrimFloat.div (PyNum.float_of_int final_size)
                                   (PyNum.float_of_int original_size)))
                 100%float).

(** A path taken out of a result dictionary and handed to [os.path] *)
Definition as_path (v : pyval) : M string :=
  match v with
  | VStr s => ret s
  | _ => raise "expected str, bytes or os.PathLike object"
  end.

Section WithBackend.
Context `{Backend}.

(** [if progress_callback: progress_callback(msg)] *)
Definition notify (progress_callback : option (string -> option exn))
  (msg : string) : M unit :=
  match progress_callback with
  | Some cb => call (cb msg)
  | None => ret tt
  end.

(** [if new_size and new_size != (0, 0): ...] with the two ways to resize;
    the image bound to [img] afterwards. *)
Definition resized (img : image) (new_size : option (Z * Z))
  (maintain_aspect : bool) : exn + image :=
  match new_size with
  | Some size =>
      if negb (bool_decide (size = (0, 0))) then
        if maintain_aspect then PIL.thumbnail img size
        else PIL.resize img size false
      else inr img
  | None => inr img
  end.

Definition compress_image (input_path output_path : string) (quality : Z)
  (new_size : option (Z * Z)) (maintain_aspect : bool)
  (progress_callback : option (string -> option exn)) : M dict :=
  try_except
    (notify progress_callback "Cargando imagen..." ;;;
     original_size <- getsize input_path ;;
     img <- PIL.open input_path ;;
     let original_dimensions := im_size img in
     notify progress_callback "Procesando imagen..." ;;;
     img <- lift (resized img new_size maintain_aspect) ;;
     notify progress_callback "Guardando imagen..." ;;;
     save_result <- save_image_universal img output_path quality ;;
     success <- getitem save_result "success" ;;
     if negb (truthy success) then
       ret {[ "success" := VBool false;
              "error" := dict_get save_result "error"
                           (VStr "Error desconocido al guardar");
              "message" := dict_get save_result "message"
                             (VStr "❌ Error al guardar") ]}
     else
       final_output_path <- getitem save_result "output_path" ;;
       final_output_path <- as_path final_output_path ;;
       compressed_size <- getsize final_output_path ;;
       ratio <- lift (compression_ratio compressed_size original_size) ;;
       let output_ext :=
         PyStr.lstrip "." (PyStr.upper (PosixPath.splitext final_output_path).2) in
       notify progress_callback "Compresión completada" ;;;
       ret {[ "success" := VBool true;
              "original_size" := VInt original_size;
              "compressed_size" := VInt compressed_size;
              "compression_ratio" := ratio;
              "original_dimensions" :=
                VSize original_dimensions.1 original_dimensions.2;
              "final_dimensions" := VSize (im_size img).1 (im_size img).2;
              "format" := VStr output_ext;
              "output_path" := VStr final_output_path;
              "fallback" := dict_get save_result "fallback" (VBool false);
              "message" := dict_get save_result "message"
                             (VStr ("✅ Comprimido como " ++ output_ext)) ]})
    (fun e =>
       ret {[ "success" := VBool false;
              "error" := VStr e;
              "message" := VStr ("❌ Error: " ++ e) ]}).

Section Batch.
Variables (output_dir output_format : string) (quality : Z)
  (new_size : option (Z * Z)) (maintain_aspect : bool)
  (progress_callback : option (string -> option pyval -> option exn))
  (image_callback : option (string -> pyval -> dict -> option exn))
  (total_images : Z).

(** [f"{i+1}/{total_images}"] *)
Definition position (i : Z) : string :=
  PyStr.of_int (i + 1) ++ "/" ++ PyStr.of_int total_images.

(** The closure [individual_progress] of iteration [i] *)
Definition individual_progress (i : Z) (msg : string) : option exn :=
  match progress_callback with
  | Some cb => cb (msg ++ " (" ++ position i ++ ")") None
  | None => None
  end.

(** The [try] block of one iteration, up to [results.append(result)] *)
Definition process_image (i : Z) (input_path : string) : M dict :=
  let base_name := (PosixPath.splitext (PosixPath.basename input_path)).1 in
  let output_filename := base_name ++ output_format in
  let output_path := PosixPath.join output_dir output_filename in
  match progress_callback with
  | Some cb =>
      q <- lift (PyNum.truediv i total_images) ;;
      let progress := PrimFloat.mul q 100%float in
      call (cb ("Procesando " ++ position i ++ ": " ++ base_name)
               (Some (VFloat progress)))
  | None => ret tt
  end ;;;
  result <- compress_image input_path output_path quality new_size
              maintain_aspect (Some (individual_progress i)) ;;
  match image_callback with
  | Some cb =>
      success <- getitem result "success" ;;
      if truthy success then
        out <- getitem result "output_path" ;;
        call (cb input_path out result)
      else ret tt
  | None => ret tt
  end ;;;
  ret result.

(** The dictionary appended by the [except] branch of an iteration *)
Definition error_result (input_path : string) (e : exn) : dict :=
  {[ "success" := VBool false;
     "error" := VStr e;
     "message" := VStr ("❌ Error procesando " ++ PosixPath.basename input_path
                        ++ ": " ++ e);
     "input_path" := VStr input_path ]}.

(** One iteration: what is appended to [results] *)
Definition batch_item (i : Z) (input_path : string) : M dict :=
  try_except (process_image i input_path)
    (fun e => ret (error_result input_path e)).

(** [for i, input_path in enumerate(image_paths)], from index [i] on *)
Fixpoint batch_loop (i : Z) (image_paths : list string) (results : list dict)
  : M (list dict) :=
  match image_paths with
  | [] => ret results
  | input_path :: rest =>
      item <- batch_item i input_path ;;
      batch_loop (i + 1) rest (results ++ [item])%list
  end.

End Batch.

Definition compress_multiple_images (image_paths : list string)
  (output_dir output_format : string) (quality : Z)
  (new_size : option (Z * Z)) (maintain_aspect : bool)
  (progress_callback : option (string -> option pyval -> option exn))
  (image_callback : option (string -> pyval -> dict -> option exn))
  : M (list dict) :=
  let total_images := Z.of_nat (length image_paths) in
  results <- batch_loop output_dir output_format quality new_size
               maintain_aspect progress_callback image_callback total_images
               0 image_paths [] ;;
  match progress_callback with
  | Some cb => call (cb "Compresión completada" (Some (VInt 100)))
  | None => ret tt
  end ;;;
  ret results.

Definition estimate_compressed_size (image_path : string) (quality : Z)
  (new_size : option (Z * Z)) : M dict :=
  try_except
    (img <- PIL.open image_path ;;
     img <- lift (match new_size with
                  | Some size =>
                      if negb (bool_decide (size = (0, 0)))
                      then PIL.thumbnail img size
                      else inr img
                  | None => inr img
                  end) ;;
     img <- lift (try_flatten_for_jpeg img) ;;
     buffer <- lift (PIL.save_buffer img "JPEG"
                       [("quality", VInt quality); ("optimize", VBool true)]) ;;
     let estimated_size := Z.of_nat (length buffer) in
     original_size <- getsize image_path ;;
     ratio <- lift (compression_ratio estimated_size original_size) ;;
     mb <- lift (PyNum.truediv estimated_size (1024 * 1024)) ;;
     ret {[ "success" := VBool true;
            "estimated_size" := VInt estimated_size;
            "original_size" := VInt original_size;
            "compression_ratio" := ratio;
            "estimated_size_mb" := VFloat (round2 mb) ]})
    (fun e =>
       ret {[ "success" := VBool false;
              "error" := VStr e ]}).

(** [get_image_info]: [image_format] is the format name Pillow detected
    for the file ([img.format]); an image not read from a file has none. *)
Definition get_image_info (image_format : bytes -> pyval) (image_path : string)
  : M dict :=
  try_except
    (img <- PIL.open image_path ;;
     file_size <- getsize image_path ;;
     mb <- lift (PyNum.truediv file_size (1024 * 1024)) ;;
     ret {[ "success" := VBool true;
            "dimensions" := VSize (im_size img).1 (im_size img).2;
            "mode" := VStr (im_mode img);
            "format" := match im_pixels img with
                        | Decoded data => image_format data
                        | _ => VNone
                        end;
            "file_size" := VInt file_size;
            "file_size_mb" := VFloat (round2 mb) ]})
    (fun e =>
       ret {[ "success" := VBool false;
              "error" := VStr e ]}).

End WithBackend.
End CompressionEngine.

(** ** Python lists *)

Module PyList.

(** [l[k:]]: a negative [k] counts from the end, and both directions clip *)
Definition slice_from {A} (l : list A) (k : Z) : list A :=
  let n := Z.of_nat (length l) in
  let start := if k <? 0 then Z.max (n + k) 0 else Z.min k n in
  drop (Z.to_nat start) l.

End PyList.

(** ** [HistoryManager] ([src/utils/history_manager.py])

    The entries of the history are result-like dictionaries; [json_dump] is
    the text [json.dump(..., indent=2, ensure_ascii=False)] writes for them
    and [timestamp] is [datetime.now().isoformat()] at the call. *)

Module HistoryManager.

Record manager := Manager {
  history_file : string;
  max_items : Z;
  history : list dict
}.

Section WithBackend.
Context `{Backend}.
Variable json_dump : list dict -> bytes.

(** [save_history]: the trimmed manager, the world, and the returned flag *)
Definition save_history (self : manager) (w : world) : manager * world * bool :=
  let self :=
    Manager (history_file self) (max_items self)
      (PyList.slice_from (history self) (- max_items self)) in
  if creatable (history_file self)
  then (self, write_file w (history_file self) (json_dump (history self)), true)
  else (self, w, false).

(** [os.path.basename] of a value taken out of a dictionary *)
Definition basename_of (v : pyval) : exn + pyval :=
  match v with
  | VStr s => inr (VStr (PosixPath.basename s))
  | _ => inl "expected str, bytes or os.PathLike object"
  end.

(** The dictionary built by [add_entry] *)
Definition make_entry (timestamp : string) (compression_result : dict)
  (input_path : string) : exn + dict :=
  match basename_of (dict_get compression_result "output_path" (VStr "")) with
  | inl e => inl e
  | inr output_filename =>
      inr (<["timestamp" := VStr timestamp]> (
           <["input_path" := VStr input_path]> (
           <["input_filename" := VStr (PosixPath.basename input_path)]> (
           <["output_path" :=
               dict_get compression_result "output_path" (VStr "")]> (
           <["output_filename" := output_filename]>
          {[ "original_size" := dict_get compression_result "original_size" (VInt 0);
             "compressed_size" := dict_get compression_result "compressed_size" (VInt 0);
             "compression_ratio" :=
               dict_get compression_result "compression_ratio" (VInt 0);
             "original_dimensions" :=
               dict_get compression_result "original_dimensions"
                 (VList [VInt 0; VInt 0]);
             "final_dimensions" :=
               dict_get compression_result "final_dimensions"
                 (VList [VInt 0; VInt 0]);
             "format" := dict_get compression_result "format" (VStr "");
             "success" := dict_get compression_result "success" (VBool false);
             "message" := dict_get compression_result "message" (VStr "");
             "fallback" := dict_get compression_result "fallback" (VBool false)
          ]})))))
  end.

(** [add_entry]: an exception while the entry is built is printed and the
    manager stays as it was. *)
Definition add_entry (timestamp : string) (compression_result : dict)
  (input_path : string) (self : manager) (w : world) : manager * world :=
  match make_entry timestamp compression_result input_path with
  | inl _ => (self, w)
  | inr entry =>
      let self := Manager (history_file self) (max_items self)
                    (history self ++ [entry])%list in
      let '(self, w, _) := save_history self w in
      (self, w)
  end.

(** [get_history(limit)] *)
Definition get_history (self : manager) (limit : option Z) : list dict :=
  match limit with
  | Some n => if negb (n =? 0) then PyList.slice_from (history self) (- n)
              else history self
  | None => history self
  end.

(** [get_recent_entries(count)] *)
Definition get_recent_entries (self : manager) (count : Z) : list dict :=
  PyList.slice_from (history self) (- count).

Definition clear_history (self : manager) (w : world) : manager * world * bool :=
  save_history (Manager (history_file self) (max_items self) []) w.

(** [remove_entry(index)] *)
Definition remove_entry (index : Z) (self : manager) (w : world)
  : manager * world * bool :=
  if (0 <=? index) && (index <? Z.of_nat (length (history self))) then
    save_history
      (Manager (history_file self) (max_items self)
         (delete (Z.to_nat index) (history self))) w
  else (self, w, false).

(** [get_entry_by_index(index)] *)
Definition get_entry_by_index (self : manager) (index : Z) : option dict :=
  if (0 <=? index) && (index <? Z.of_nat (length (history self)))
  then history self !! Z.to_nat index
  else None.

End WithBackend.
End HistoryManager.

(** ** Outcomes named in the statements *)

(** What a failed [Image.save] leaves of a file that was there before: the
    file is opened for writing, hence emptied, before the encoder runs. *)
Definition truncated (w : world) (p : string) : world :=
  if path_exists w p then write_file w p [] else w.

(** The dictionary an [except Exception as e] branch of [compress_image]
    returns *)
Definition caught (e : exn) : dict :=
  {[ "success" := VBool false;
     "error" := VStr e;
     "message" := VStr ("❌ Error: " ++ e) ]}.

(** The dictionary [compress_image] returns for an unsuccessful save *)
Definition save_failed (save_result : dict) : dict :=
  {[ "success" := VBool false;
     "error" := dict_get save_result "error" (VStr "Error desconocido al guardar");
     "message" := dict_get save_result "message" (VStr "❌ Error al guardar") ]}.





(** The extension [save_image_universal] sees for an input of a batch: that
    of [os.path.join(output_dir, f"{base_name}{output_format}")] *)
Definition target_extension (output_dir output_format input_path : string)
  : string :=
  PyStr.lower
    (PosixPath.splitext
       (PosixPath.join output_dir
          ((PosixPath.splitext (PosixPath.basename input_path)).1
           ++ output_format))).2.

(** ** A small concrete runtime

    Used to run the engine on concrete inputs: a Pillow with JPEG, PNG and
    PPM encoders and no AVIF or HEIF plugin, no ReportLab and no Wand.  An
    image file is three header bytes (mode, width, height) and its pixel
    data; encoders reject the modes Pillow's plugins reject and write a
    two-byte header only. *)
Module Demo.

Definition mode_of_byte (b : Byte.byte) : option string :=
  match b with
  | "1"%byte => Some "1"
  | "L"%byte => Some "L"
  | "A"%byte => Some "LA"
  | "P"%byte => Some "P"
  | "R"%byte => Some "RGB"
  | "T"%byte => Some "RGBA"
  | "C"%byte => Some "CMYK"
  | _ => None
  end.

Definition dim_of_byte (b : Byte.byte) : Z := Z.of_N (Byte.to_N b).

Definition decode (data : bytes) : exn + (string * (Z * Z)) :=
  match data with
  | m :: w :: h :: _ =>
      match mode_of_byte m with
      | Some mode => inr (mode, (dim_of_byte w, dim_of_byte h))
      | None => inl "cannot identify image file"
      end
  | _ => inl "cannot identify image file"
  end.

Definition encoder (format : string) (modes : list string) (out : bytes)
  (img : image) (kw : params) : exn + bytes :=
  if bool_decide (im_mode img ∈ modes) then inr out
  else inl ("cannot write mode " ++ im_mode img ++ " as " ++ format).

Definition SAVE (format : string) : option (image -> params -> exn + bytes) :=
  if String.eqb format "JPEG"
  then Some (encoder "JPEG" ["1"; "L"; "RGB"; "RGBX"; "CMYK"; "YCbCr"]
               ["J"%byte; "F"%byte])
  else if String.eqb format "PNG"
  then Some (encoder "PNG" ["1"; "L"; "LA"; "I"; "P"; "RGB"; "RGBA"]
               ["P"%byte; "N"%byte; "G"%byte])
  else if String.eqb format "PPM"
  then Some (encoder "PPM" ["1"; "L"; "I"; "RGB"; "RGBA"] ["P"%byte; "6"%byte])
  else None.

Definition EXTENSION (ext : string) : option string :=
  if bool_decide (ext ∈ [".jpg"; ".jpeg"]) then Some "JPEG"
  else if String.eqb ext ".png" then Some "PNG"
  else if bool_decide (ext ∈ [".ppm"; ".pgm"; ".pbm"]) then Some "PPM"
  else None.

(** The conversions of this runtime: from every mode a file can have, and
    from no other (the premultiplied La, for one). *)
Definition convert_error (from to : string) (adaptive : bool) : option exn :=
  if bool_decide (from ∈ ["1"; "L"; "LA"; "P"; "RGB"; "RGBA"; "CMYK"]) then None
  else Some ("conversion from " ++ from ++ " to " ++ to ++ " not supported").

Definition backend : Backend :=
  Build_Backend decode convert_error SAVE EXTENSION None None (fun _ => true)
    (fun x => x).

(** A 4x3 truecolor image with alpha and a 2x2 grayscale one with alpha *)
Definition rgba_file : bytes :=
  [x54; x04; x03; x00; x00; x00; x00; x00; x00; x00]%byte.
Definition la_file : bytes := [x41; x02; x02; x00; x00]%byte.

Definition rgb_image : image := Image "RGB" (4, 3) (Decoded rgba_file).
Definition la_image : image := Image "LA" (2, 2) (Decoded la_file).
Definition palette_image : image := Image "P" (2, 2) (Decoded la_file).

Definition disk : world :=
  World (<["in/photo.png" := rgba_file]> (<["in/gray.png" := la_file]> ∅))
        1700000000.

(** A progress callback that fails on the closing notification *)
Definition closing_fails (msg : string) (progress : option pyval) : option exn :=
  match progress with
  | Some (VInt 100) => Some "progress display closed"
  | _ => None
  end.

(** A progress callback that fails on the announcement of the second item *)
Definition flaky_progress (msg : string) (progress : option pyval) : option exn :=
  if String.prefix "Procesando 2/" msg then Some "progress display failed"
  else None.

(** What the JPEG encoder of this runtime writes *)
Definition jpeg_data : bytes := ["J"; "F"]%byte.

(** The result of converting the 4x3 image to JPEG *)
Definition converted (final_width final_height : Z) : dict :=
  {[ "success" := VBool true;
     "original_size" := VInt 10;
     "compressed_size" := VInt 2;
     "compression_ratio" := VFloat 80%float;
     "original_dimensions" := VSize 4 3;
     "final_dimensions" := VSize final_width final_height;
     "format" := VStr "JPG";
     "output_path" := VStr "out/photo.jpg";
     "fallback" := VBool false;
     "message" := VStr "✅ Guardado como .JPG" ]}.

(** The world with [d/a.png] and all hundred copy names taken, and the
    stamped name as well *)
Definition crowded_disk : world :=
  World (foldr (fun k m => <[copy_path "d" "a" ".png" (Z.of_nat k) := []]> m)
               (<["d/a.png" := []]> (<["d/a_1700000000.png" := []]> ∅))
               (seq 1 100))
        1700000000.

(** One byte per entry stands for the JSON text of a history *)
Definition json_dump (entries : list dict) : bytes :=
  (fun _ => "{"%byte) <$> entries.

(** An entry of an earlier session *)
Definition earlier (name : string) : dict :=
  {[ "input_path" := VStr name; "success" := VBool true ]}.

(** A history manager that keeps two entries and holds two *)
Definition manager : HistoryManager.manager :=
  HistoryManager.Manager "history.json" 2 [earlier "a.png"; earlier "b.png"].

(** The world after the 4x3 image was saved as [out/photo.jpg] *)
Definition disk_after_save : world := write_file disk "out/photo.jpg" jpeg_data.

(** The encoders of this runtime, as [SAVE] gives them *)
Definition jpeg_handler : image -> params -> exn + bytes :=
  encoder "JPEG" ["1"; "L"; "RGB"; "RGBX"; "CMYK"; "YCbCr"] ["J"%byte; "F"%byte].

(** What the PNG encoder of this runtime writes *)
Definition png_data : bytes := ["P"; "N"; "G"]%byte.

(** The result of saving an image as JPEG under the name [p] *)
Definition saved (p : string) : dict :=
  {[ "success" := VBool true;
     "output_path" := VStr p;
     "message" := VStr "✅ Guardado como .JPG" ]}.

(** The result of a PDF export without ReportLab *)
Definition pdf_failure : dict :=
  {[ "success" := VBool false;
     "error" := VStr "No module named 'reportlab'";
     "message" := VStr "❌ Error creando PDF: No module named 'reportlab'" ]}.

(** A history manager with room for five entries that holds one *)
Definition roomy_manager : HistoryManager.manager :=
  HistoryManager.Manager "history.json" 5 [earlier "a.png"].

(** A history manager whose bound is zero *)
Definition unbounded_manager : HistoryManager.manager :=
  HistoryManager.Manager "history.json" 0 [earlier "a.png"; earlier "b.png"].

End Demo.

(** ** Proof tools *)

(** Decide the membership tests on concrete lists *)
Ltac decide_elems :=
  repeat match goal with
    | |- context [bool_decide (?x ∈ ?l)] =>
        first [ rewrite (bool_decide_eq_true_2 (x ∈ l)) by compute_done
              | rewrite (bool_decide_eq_false_2 (x ∈ l)) by compute_done ]
    | H : context [bool_decide (?x ∈ ?l)] |- _ =>
        first [ rewrite (bool_decide_eq_true_2 (x ∈ l)) in H by compute_done
              | rewrite (bool_decide_eq_false_2 (x ∈ l)) in H by compute_done ]
    end.

(** Case analysis on the innermost [match] scrutinees of a hypothesis *)
Ltac split_run H :=
  repeat match type of H with
    | context [match ?x with _ => _ end] =>
        lazymatch x with
        | context [match _ with _ => _ end] => fail
        | _ => destruct x eqn:?; simpl in H
        end
    end.

(** Case analysis on the innermost [match] scrutinees of the goal *)
Ltac split_goal :=
  repeat match goal with
    | |- context [match ?x with _ => _ end] =>
        lazymatch x with
        | context [match _ with _ => _ end] => fail
        | _ => destruct x eqn:?; simpl
        end
    end.

(** Evaluate the mode tests of a preparation once the mode is known *)
Ltac known_mode E :=
  repeat (rewrite ?E; decide_elems; simpl);
  unfold PIL.split_last; simpl;
  repeat (rewrite ?E; decide_elems; simpl).

(** A closed equation between values, settled by evaluating both sides *)
Ltac by_evaluation :=
  match goal with |- ?l = ?r => vm_cast_no_check (@eq_refl _ r) end.

(** Rewrite with the existence tests that are known *)
Ltac use_exists :=
  repeat match goal with
    | E : path_exists ?a ?b = _ |- context [path_exists ?a ?b] => rewrite E
    end.

(** Close one leaf of the case analysis of [save_image_universal]: the
    disjunct is read off the shape of the final world and dictionary. *)
Ltac close_effect :=
  cbv zeta; unfold truncated; use_exists;
  lazymatch goal with
  | |- (?d !! "success" = Some (VBool true) /\ _) \/ _ =>
      lazymatch d with
      | context [VBool true] =>
          left; split; [reflexivity|]; split; [eexists; reflexivity|];
          eexists _, _; split; [reflexivity|];
          lazymatch d with
          | context [PyStr.replace] => right; split; reflexivity
          | _ => left; split; reflexivity
          end
      | _ =>
          right; split; [reflexivity|]; split; [eexists; reflexivity|];
          split; [eexists; reflexivity|];
          lazymatch goal with
          | |- ?w1 = _ \/ _ =>
              lazymatch w1 with
              | context [PyStr.replace] => right; reflexivity
              | _ => left; reflexivity
              end
          end
      end
  end.

(** Case analysis on the tests of a hypothesis that mention [x] *)
Ltac split_on x H :=
  repeat match type of H with
    | context [if ?c then _ else _] =>
        lazymatch c with
        | context [x] => destruct c eqn:?
        end
    end.

(** The message of a result that is known as a dictionary display *)
Ltac message_of Hmsg :=
  match type of Hmsg with
  | ?l = Some (VStr _) =>
      let m := fresh "m" in
      let Hm := fresh "Hm" in
      evar (m : string);
      assert (Hm : l = Some (VStr m)) by (subst m; reflexivity);
      subst m; rewrite Hm in Hmsg; clear Hm;
      try (injection Hmsg as Hmsg; cbn [String.append] in Hmsg)
  end.

(** An extension of the table that failed every test of the chain *)
Ltac outside_table Hext :=
  repeat match goal with
    | E : String.eqb _ _ = false |- _ => apply String.eqb_neq in E
    | E : bool_decide _ = false |- _ => apply bool_decide_eq_false_1 in E
    end;
  unfold FormatHandler.SUPPORTED_FORMATS in Hext;
  repeat (apply elem_of_cons in Hext as [->|Hext]);
  [ .. | apply elem_of_nil in Hext; contradiction ];
  solve [ congruence
        | match goal with E : _ ∉ _ |- _ => apply E; compute_done end ].

(** Was the requested name itself truncated on the way to world [w1]? *)
Ltac unique_truncated w1 :=
  match w1 with
  | context [write_file ?w (generate_unique_filename ?w ?p) []] =>
      lazymatch p with
      | context [PyStr.replace] => fail
      | _ => idtac
      end
  end.

Ltac close_run :=
  repeat match goal with x := _ |- _ => subst x end;
  lazymatch goal with
  | |- exists w' d w0, (?w1, _) = _ /\ _ =>
      tryif unique_truncated w1 then
        (eexists _, _, _; split; [reflexivity|];
         split; [right; unfold truncated; use_exists; reflexivity|];
         close_effect)
      else
        (eexists _, _, _; split; [reflexivity|];
         split; [left; reflexivity|]; close_effect)
  end.

(** Close one case of the analysis of [compress_image] *)
Ltac close_compress :=
  lazymatch goal with
  | Hs : FormatHandler.save_image_universal _ _ _ _ = _ |- _ =>
      right; eexists _, _, _, _, _;
      split; [reflexivity|];
      split; [eassumption|]; split; [eassumption|]; split; [eassumption|];
      lazymatch goal with
      | |- (exists e, ?r = caught e) \/ _ =>
          lazymatch r with
          | context [VBool true] =>
              right; right; eexists _, _; split; [reflexivity|];
              split; [eassumption|]; split; [|reflexivity];
              match goal with E : negb _ = false |- _ =>
                apply negb_false_iff in E; exact E end
          | context [dict_get] =>
              right; left; eexists; split; [reflexivity|];
              split; [reflexivity|]; eexists; split; [eassumption|];
              match goal with E : negb _ = true |- _ =>
                apply negb_true_iff in E; exact E end
          | _ => left; eexists; unfold caught; reflexivity
          end
      end
  | _ => left; eexists; unfold caught; split; reflexivity
  end.

(** * Properties *)

(** ** The path allocator *)

Lemma copy_loop_step w d n e c :
  copy_loop w d n e c =
  if path_exists w (copy_path d n e c)
  then if decide (c + 1 > 100) then stamped_path d n e (clock w)
       else copy_loop w d n e (c + 1)
  else copy_path d n e c.
Proof.
  rewrite copy_loop_equation_1.
  destruct (path_exists w (copy_path d n e c)); simpl; [|reflexivity].
  destruct (decide (c + 1 > 100)); reflexivity.
Qed.

(** The loop started at [c] returns the first free candidate at or after [c]. *)
Lemma copy_loop_first_free w d n e (steps : nat) :
  forall c k, k = c + Z.of_nat steps -> k <= 100 ->
    (forall j, c <= j < k -> path_exists w (copy_path d n e j) = true) ->
    path_exists w (copy_path d n e k) = false ->
    copy_loop w d n e c = copy_path d n e k.
Proof.
  induction steps as [|steps IH]; intros c k Hk Hle Hbusy Hfree.
  - assert (k = c) as -> by lia.
    rewrite copy_loop_step, Hfree. reflexivity.
  - rewrite copy_loop_step, (Hbusy c) by lia.
    destruct (decide (c + 1 > 100)) as [Hgt|_]; [lia|].
    apply IH; [lia | lia | | exact Hfree].
    intros j Hj. apply Hbusy. lia.
Qed.

(** With every candidate from [c] to 100 taken, the loop gives the stamped name. *)
Lemma copy_loop_exhausted w d n e (steps : nat) :
  forall c, 100 = c + Z.of_nat steps ->
    (forall j, c <= j <= 100 -> path_exists w (copy_path d n e j) = true) ->
    copy_loop w d n e c = stamped_path d n e (clock w).
Proof.
  induction steps as [|steps IH]; intros c Hc Hbusy.
  - rewrite copy_loop_step, (Hbusy c) by lia.
    destruct (decide (c + 1 > 100)) as [_|Hle]; [reflexivity | lia].
  - rewrite copy_loop_step, (Hbusy c) by lia.
    destruct (decide (c + 1 > 100)) as [Hgt|_]; [lia|].
    apply IH; [lia|]. intros j Hj. apply Hbusy. lia.
Qed.

(** C4. Path allocation: a free path is returned unchanged; otherwise the
    result is the first free [stem_copyK.ext] for K = 1, 2, ..., 100 (same
    directory, same extension); and when all hundred are taken it is
    [stem_<clock>.ext], whatever exists at that path. *)
Theorem generate_unique_filename_allocates
  (w : world) (output_path directory name ext : string)
  (Hdir : directory = PosixPath.dirname output_path)
  (Hsplit : (name, ext) = PosixPath.splitext (PosixPath.basename output_path)) :
  (path_exists w output_path = false ->
     generate_unique_filename w output_path = output_path) /\
  (path_exists w output_path = true ->
     forall k, 1 <= k <= 100 ->
       (forall j, 1 <= j < k ->
          path_exists w (PosixPath.join directory
            (name ++ "_copy" ++ PyStr.of_int j ++ ext)) = true) ->
       path_exists w (PosixPath.join directory
         (name ++ "_copy" ++ PyStr.of_int k ++ ext)) = false ->
       generate_unique_filename w output_path =
         PosixPath.join directory (name ++ "_copy" ++ PyStr.of_int k ++ ext)) /\
  (path_exists w output_path = true ->
     (forall j, 1 <= j <= 100 ->
        path_exists w (PosixPath.join directory
          (name ++ "_copy" ++ PyStr.of_int j ++ ext)) = true) ->
     generate_unique_filename w output_path =
       PosixPath.join directory (name ++ "_" ++ PyStr.of_int (clock w) ++ ext)).
Proof.
  unfold generate_unique_filename. rewrite <- Hsplit, <- Hdir.
  split; [|split].
  - intros ->. reflexivity.
  - intros -> k Hk Hbusy Hfree. simpl.
    apply (copy_loop_first_free w directory name ext (Z.to_nat (k - 1)) 1 k);
      [lia | lia | exact Hbusy | exact Hfree].
  - intros -> Hbusy. simpl.
    apply (copy_loop_exhausted w directory name ext 99 1); [lia | exact Hbusy].
Qed.

(** ** The format table and unknown extensions *)

Section FormatHandlerFacts.
Import FormatHandler.
Context `{Backend}.

Lemma eqb_unsupported (ext s : string) :
  ext ∉ SUPPORTED_FORMATS -> s ∈ SUPPORTED_FORMATS -> String.eqb ext s = false.
Proof.
  intros Hout Hin. destruct (String.eqb_spec ext s) as [->|]; [contradiction | reflexivity].
Qed.

Lemma elem_unsupported (ext : string) (l : list string) :
  ext ∉ SUPPORTED_FORMATS -> l ⊆ SUPPORTED_FORMATS -> bool_decide (ext ∈ l) = false.
Proof.
  intros Hout Hsub. apply bool_decide_eq_false. intros Hin. apply Hout, Hsub, Hin.
Qed.

(** C2. A destination whose (lower-cased) extension is not in the format
    table gives a failure result with the unsupported-format error, and the
    world is left as it was: no file is written, no PNG is produced. *)
Theorem save_image_universal_unknown_extension
  (img : image) (output_path : string) (quality : Z) (w : world) :
  let ext := PyStr.lower (PosixPath.splitext output_path).2 in
  ext ∉ SUPPORTED_FORMATS ->
  save_image_universal img output_path quality w =
    (w, Return {[ "success" := VBool false;
                  "error" := VStr ("Formato " ++ ext ++ " no soportado");
                  "message" := VStr ("❌ Formato " ++ PyStr.upper ext
                                     ++ " no reconocido") ]}).
Proof.
  intros ext Hext.
  unfold save_image_universal, save_by_extension. fold ext.
  rewrite !(eqb_unsupported ext _ Hext) by compute_done.
  rewrite !(elem_unsupported ext _ Hext) by compute_done.
  reflexivity.
Qed.

End FormatHandlerFacts.

Lemma save_image_universal_unknown_extension_witness :
  @FormatHandler.save_image_universal Demo.backend Demo.rgb_image
     "out/photo.xyz" 85 Demo.disk
  = (Demo.disk,
     Return {[ "success" := VBool false;
               "error" := VStr "Formato .xyz no soportado";
               "message" := VStr "❌ Formato .XYZ no reconocido" ]}).
Proof.
  apply (@save_image_universal_unknown_extension Demo.backend Demo.rgb_image
           "out/photo.xyz" 85 Demo.disk).
  compute_done.
Defined.

(** ** Redirection to PNG *)



Section Fallback.
Import FormatHandler.
Context `{Backend}.

(** The preparations as they run give the prepared image or raise. *)
Lemma try_prepare_for_png_image (img prepared : image) :
  try_prepare_for_png img = inr prepared -> prepared = prepare_for_png img.
Proof.
  unfold try_prepare_for_png, prepare_for_png, PIL.try_convert.
  destruct (negb _); [|intros [= <-]; reflexivity].
  destruct (convert_error _ _ _); [discriminate | intros [= <-]; reflexivity].
Qed.

Lemma try_flatten_for_jpeg_image (img prepared : image) :
  try_flatten_for_jpeg img = inr prepared -> prepared = flatten_for_jpeg img.
Proof.
  unfold try_flatten_for_jpeg, flatten_for_jpeg, PIL.try_convert.
  destruct (bool_decide _).
  - destruct (String.eqb (im_mode img) "P").
    + destruct (convert_error _ _ _); [discriminate | intros [= <-]; reflexivity].
    + intros [= <-]; reflexivity.
  - destruct (negb _); [|intros [= <-]; reflexivity].
    destruct (convert_error _ _ _); [discriminate | intros [= <-]; reflexivity].
Qed.


(** C1. The AVIF and HEIC/HEIF cases return no record of the requested or
    the written format, whichever way they end: neither the direct result
    nor the PNG-fallback result has an ["original_format"] or a
    ["final_format"] entry (the write-unsupported case above has both). *)
Theorem best_effort_result_lacks_format_record
  (img : image) (output_path : string) (quality : Z) (w w' : world) (d : dict) :
  PyStr.lower (PosixPath.splitext output_path).2 ∈ [".avif"; ".heic"; ".heif"] ->
  save_image_universal img output_path quality w = (w', Return d) ->
  d !! "original_format" = None /\ d !! "final_format" = None.
Proof.
  intros Hext Hrun. unfold save_image_universal in Hrun.
  remember (PyStr.lower (PosixPath.splitext output_path).2) as ext eqn:Eext.
  clear Eext.
  repeat (apply elem_of_cons in Hext as [->|Hext]);
    [ .. | apply elem_of_nil in Hext; contradiction ];
    unfold save_by_extension, fallback_to_png in Hrun; decide_elems;
    cbn [String.eqb Ascii.eqb Bool.eqb] in Hrun;
    cbv beta iota delta [try_except bind unique_filename PIL.save ret raise lift]
      in Hrun;
    split_run Hrun; inversion Hrun; subst; split; reflexivity.
Qed.

End Fallback.

(** At the input of the end-to-end example (a runtime without HEIF encoder)
    the fallback happens and the record is missing. *)
Lemma best_effort_result_lacks_format_record_witness :
  let w' := write_file Demo.disk "out/photo.png" ["P"; "N"; "G"]%byte in
  let d : dict :=
    {[ "success" := VBool true;
       "fallback" := VBool true;
       "output_path" := VStr "out/photo.png";
       "message" := VStr "⚠️ HEIC/HEIF no disponible. Convertido a PNG." ]} in
  @FormatHandler.save_image_universal Demo.backend Demo.rgb_image
     "out/photo.heic" 85 Demo.disk = (w', Return d) /\
  d !! "original_format" = None /\ d !! "final_format" = None.
Proof.
  intros w' d.
  assert (@FormatHandler.save_image_universal Demo.backend Demo.rgb_image
            "out/photo.heic" 85 Demo.disk = (w', Return d)) as Hrun
    by (vm_cast_no_check (@eq_refl _ (w', Return d))).
  split; [exact Hrun|].
  apply (@best_effort_result_lacks_format_record Demo.backend Demo.rgb_image
           "out/photo.heic" 85 Demo.disk w' d); [compute_done | exact Hrun].
Defined.

(** ** Preparing an image for an encoder *)

Section Normalization.
Import FormatHandler.
Context `{Backend}.


(** X20. Whatever the input, the image handed to the JPEG encoder is
    truecolor without alpha and has the size of the input. *)
Lemma flatten_for_jpeg_mode_size (img : image) :
  im_mode (flatten_for_jpeg img) = "RGB" /\
  im_size (flatten_for_jpeg img) = im_size img.
Proof.
  unfold flatten_for_jpeg.
  destruct (bool_decide (im_mode img ∈ ["RGBA"; "LA"; "P"])); [split; reflexivity|].
  destruct (String.eqb_spec (im_mode img) "RGB") as [E|E]; simpl; [|split; reflexivity].
  split; [exact E | reflexivity].
Qed.

(** A truecolor image with alpha is pasted onto white through its alpha band. *)
Lemma flatten_for_jpeg_RGBA (img : image) :
  im_mode img = "RGBA" ->
  flatten_for_jpeg img =
    Image "RGB" (im_size img)
      (Pasted (Solid FormatHandler.white) (im_pixels img) (Some (LastBand (im_pixels img)))).
Proof.
  intros E. unfold flatten_for_jpeg. known_mode E. reflexivity.
Qed.

(** A palette image is first converted to truecolor with alpha. *)
Lemma flatten_for_jpeg_P (img : image) :
  im_mode img = "P" ->
  flatten_for_jpeg img =
    let rgba := Converted "RGBA" false (im_pixels img) in
    Image "RGB" (im_size img) (Pasted (Solid FormatHandler.white) rgba (Some (LastBand rgba))).
Proof.
  intros E. unfold flatten_for_jpeg. known_mode E. reflexivity.
Qed.

(** Every mode outside RGBA, LA, P and RGB is converted. *)
Lemma flatten_for_jpeg_other (img : image) :
  im_mode img ∉ ["RGBA"; "LA"; "P"; "RGB"] ->
  flatten_for_jpeg img = PIL.convert img "RGB" false.
Proof.
  intros Hm. unfold flatten_for_jpeg.
  rewrite bool_decide_eq_false_2
    by (intros Hin; apply Hm; revert Hin; rewrite !elem_of_cons; tauto).
  destruct (String.eqb_spec (im_mode img) "RGB") as [E|E]; [|reflexivity].
  exfalso. apply Hm. rewrite E, !elem_of_cons. tauto.
Qed.

(** C5. For a grayscale image with alpha (mode LA) the white background is
    pasted over without any mask: the alpha band is not used, every pixel
    of the background is replaced by the image's own value. *)
Theorem flatten_for_jpeg_LA_no_mask (img : image) :
  im_mode img = "LA" ->
  flatten_for_jpeg img =
    Image "RGB" (im_size img) (Pasted (Solid FormatHandler.white) (im_pixels img) None).
Proof.
  intros E. unfold flatten_for_jpeg. known_mode E. reflexivity.
Qed.

(** C6 as the code has it. Grayscale and truecolor images, with or without
    alpha for truecolor, reach the PNG encoder unchanged; every other mode,
    the palette mode included, is converted to truecolor with alpha. *)
Theorem prepare_for_png_modes (img : image) :
  (im_mode img ∈ ["RGBA"; "RGB"; "L"] -> prepare_for_png img = img) /\
  (im_mode img ∉ ["RGBA"; "RGB"; "L"] ->
     prepare_for_png img = PIL.convert img "RGBA" false /\
     im_mode (prepare_for_png img) = "RGBA" /\
     im_size (prepare_for_png img) = im_size img).
Proof.
  unfold prepare_for_png. split; intros Hm.
  - rewrite bool_decide_eq_true_2 by exact Hm. reflexivity.
  - rewrite bool_decide_eq_false_2 by exact Hm. repeat split.
Qed.

(** The JPEG cases of the chain encode exactly the flattened image. *)
Lemma save_by_extension_jpeg (img prepared : image) (ext unique_path : string)
  (quality : Z) :
  ext ∈ [".jpg"; ".jpeg"] ->
  try_flatten_for_jpeg img = inr prepared ->
  save_by_extension img ext unique_path quality =
    (PIL.save (flatten_for_jpeg img) unique_path (Some "JPEG")
       [("quality", VInt quality); ("optimize", VBool true);
        ("progressive", VBool true)] ;;;
     ret None).
Proof.
  intros Hext Hprep. unfold save_by_extension.
  rewrite bool_decide_eq_true_2 by exact Hext.
  rewrite Hprep, <- (try_flatten_for_jpeg_image _ _ Hprep). reflexivity.
Qed.

(** The PNG case of the chain encodes exactly the prepared image. *)
Lemma save_by_extension_png (img prepared : image) (unique_path : string)
  (quality : Z) :
  try_prepare_for_png img = inr prepared ->
  save_by_extension img ".png" unique_path quality =
    (PIL.save (prepare_for_png img) unique_path (Some "PNG")
       [("optimize", VBool true); ("compress_level", VInt 9)] ;;;
     ret None).
Proof.
  intros Hprep. unfold save_by_extension. cbn [String.eqb Ascii.eqb Bool.eqb].
  rewrite bool_decide_eq_false_2 by compute_done.
  rewrite Hprep, <- (try_prepare_for_png_image _ _ Hprep). reflexivity.
Qed.

End Normalization.

Lemma flatten_for_jpeg_LA_no_mask_witness :
  FormatHandler.flatten_for_jpeg Demo.la_image =
    Image "RGB" (2, 2) (Pasted (Solid FormatHandler.white) (Decoded Demo.la_file) None).
Proof.
  apply (flatten_for_jpeg_LA_no_mask Demo.la_image). reflexivity.
Defined.

(** A palette image does not pass through: its mode changes from P to RGBA. *)
Lemma prepare_for_png_palette_converted :
  im_mode Demo.palette_image = "P" /\
  im_mode (FormatHandler.prepare_for_png Demo.palette_image)
    <> im_mode Demo.palette_image.
Proof.
  split; [reflexivity|]. vm_compute. discriminate.
Defined.

Lemma prepare_for_png_modes_witness :
  FormatHandler.prepare_for_png Demo.rgb_image = Demo.rgb_image /\
  im_mode (FormatHandler.prepare_for_png Demo.palette_image) = "RGBA".
Proof.
  split.
  - apply (proj1 (prepare_for_png_modes Demo.rgb_image)). compute_done.
  - apply (proj2 (prepare_for_png_modes Demo.palette_image)). compute_done.
Defined.

(** ** Pillow's resizing *)

(** *** Rounding to binary64 *)

Section Rounding.
Import Binary64.
Local Open Scope Q_scope.

Lemma pow2_pos (e : Z) : 0 < 2 ^ e.
Proof. apply Qpower_0_lt. reflexivity. Qed.

Lemma pow2_succ (e : Z) : 2 ^ (e + 1) == 2 * 2 ^ e.
Proof. rewrite Qpower_plus by discriminate. rewrite Qpower_1_r. ring. Qed.

Lemma Zlog2_bounds (n : Z) : (0 < n)%Z ->
  inject_Z (2 ^ Z.log2 n) <= inject_Z n /\ inject_Z n < 2 * inject_Z (2 ^ Z.log2 n).
Proof.
  intros Hn. destruct (Z.log2_spec n Hn) as [Hlo Hhi].
  split.
  - rewrite <- Zle_Qle. exact Hlo.
  - replace 2 with (inject_Z 2) by reflexivity. rewrite <- inject_Z_mult.
    rewrite <- Zlt_Qlt. rewrite Z.pow_succ_r in Hhi by apply Z.log2_nonneg. exact Hhi.
Qed.

Lemma ilog2_le (q : Q) : ~ q == 0 -> 2 ^ ilog2 q <= Qabs q.
Proof.
  intros Hq. unfold ilog2. cbv zeta.
  destruct (Qle_bool _ _) eqn:Htest; [apply Qle_bool_iff; exact Htest|].
  destruct q as [n d]. simpl Qnum. simpl Qden.
  assert (0 < Z.abs n)%Z as Hn.
  { destruct n; [exfalso; apply Hq; reflexivity | lia | lia]. }
  destruct (Zlog2_bounds (Z.abs n) Hn) as [Hnlo _].
  destruct (Zlog2_bounds (Zpos d) ltac:(lia)) as [_ Hdhi].
  set (a := Z.log2 (Z.abs n)) in *. set (b := Z.log2 (Zpos d)) in *.
  assert (0 <= a)%Z as Ha by apply Z.log2_nonneg.
  assert (0 <= b)%Z as Hb by apply Z.log2_nonneg.
  rewrite Zpower_Qpower in Hnlo, Hdhi by assumption.
  change (inject_Z 2) with 2 in Hnlo, Hdhi.
  replace (a - b - 1)%Z with (a - (b + 1))%Z by lia.
  rewrite Qpower_minus by discriminate. rewrite pow2_succ.
  assert (Qabs (n # d) == inject_Z (Z.abs n) / inject_Z (Zpos d)) as ->.
  { unfold Qabs. rewrite (Qmake_Qdiv (Z.abs n) d). reflexivity. }
  pose proof (pow2_pos a) as Pa. pose proof (pow2_pos b) as Pb.
  assert (0 < inject_Z (Zpos d)) as Pd by (rewrite <- (Zlt_Qlt 0); lia).
  set (A := 2 ^ a) in *. set (B := 2 ^ b) in *.
  set (N := inject_Z (Z.abs n)) in *. set (D := inject_Z (Zpos d)) in *.
  apply Qle_shift_div_l; [exact Pd|].
  assert (A / (2 * B) * D == (A * D) / (2 * B)) as -> by (field; lra).
  apply Qle_shift_div_r; [lra|].
  nra.
Qed.

Lemma nearest_even_error (q : Q) :
  Qabs (inject_Z (nearest_even q) - q) <= 1 # 2.
Proof.
  unfold nearest_even. cbv zeta.
  pose proof (Qfloor_le q) as Hlo. pose proof (Qlt_floor q) as Hhi.
  rewrite inject_Z_plus in Hhi. change (inject_Z 1) with 1 in Hhi.
  set (n := Qfloor q) in *.
  apply Qabs_Qle_condition.
  destruct (Qcompare_spec (q - inject_Z n) (1 # 2)) as [E|E|E].
  - destruct (Z.even n); [|rewrite inject_Z_plus; change (inject_Z 1) with 1];
      lra.
  - lra.
  - rewrite inject_Z_plus. change (inject_Z 1) with 1. lra.
Qed.

Lemma round_zero (q : Q) : q == 0 -> round q == 0.
Proof.
  intros Hq. unfold round. cbv zeta.
  rewrite (proj2 (Qeq_bool_iff _ _)); [reflexivity|].
  rewrite Qred_correct. exact Hq.
Qed.

(** The relative error of a rounding is at most [2^-53]. *)
Lemma round_error (q : Q) : Qabs (round q - q) <= Qabs q * u.
Proof.
  unfold round. cbv zeta.
  destruct (Qeq_bool (Qred q) 0) eqn:Hz.
  - apply Qeq_bool_iff in Hz. rewrite Qred_correct in Hz.
    rewrite Hz. vm_compute. discriminate.
  - assert (~ Qred q == 0) as Hnz.
    { intros E. apply Qeq_bool_iff in E. congruence. }
    pose proof (ilog2_le (Qred q) Hnz) as Hlog.
    set (e := ilog2 (Qred q)) in *.
    pose proof (pow2_pos (e - 52)) as Hulp.
    assert (2 ^ e == 2 ^ (e - 52) * inject_Z (2 ^ 52)) as Hsplit.
    { rewrite Zpower_Qpower by lia. change (inject_Z 2) with 2.
      rewrite <- Qpower_plus by discriminate. f_equiv. lia. }
    set (ulp := 2 ^ (e - 52)) in *.
    pose proof (nearest_even_error (Qred q / ulp)) as Hne.
    set (m := inject_Z (nearest_even (Qred q / ulp))) in *.
    rewrite Qred_correct in Hlog. rewrite Qred_correct in Hne.
    assert (m * ulp - q == (m - q / ulp) * ulp) as -> by (field; lra).
    rewrite Qabs_Qmult. rewrite (Qabs_pos ulp) by lra.
    apply Qle_trans with ((1 # 2) * ulp).
    + apply Qmult_le_compat_r; [exact Hne | lra].
    + rewrite Hsplit in Hlog. unfold u.
      change (inject_Z (2 ^ 52)) with (4503599627370496 # 1) in Hlog.
      set (A := Qabs q) in *. lra.
Qed.






Lemma round_bounds (q : Q) :
  0 <= q -> q * (1 - u) <= round q /\ round q <= q * (1 + u).
Proof.
  intros Hq. pose proof (round_error q) as He.
  rewrite (Qabs_pos q Hq) in He. apply Qabs_Qle_condition in He.
  split; lra.
Qed.

Lemma round_nonneg (q : Q) : 0 <= q -> 0 <= round q.
Proof.
  intros Hq. destruct (round_bounds q Hq) as [Hlo _].
  unfold u in Hlo. lra.
Qed.





End Rounding.

(** *** The size [thumbnail] aims at *)

Section Aim.
Import Binary64.
Local Open Scope Q_scope.


















End Aim.

Section Target.
Import Binary64.


End Target.

Section Resizing.
Import Binary64.
Context `{Backend}.



End Resizing.

(** ** The compression engine *)

Section Engine.
Import FormatHandler CompressionEngine.
Context `{Backend}.


(** What a successful run of [compress_image] went through. *)
Lemma compress_image_success input_path output_path quality new_size
  maintain_aspect progress_callback (w w' : world) (r : dict) :
  compress_image input_path output_path quality new_size maintain_aspect
    progress_callback w = (w', Return r) ->
  r !! "success" = Some (VBool true) ->
  exists (data : bytes) mode size img save_result final_output_path
         (written : bytes) ratio,
    files w !! input_path = Some data /\
    decode data = inr (mode, size) /\
    resized (Image mode size (Decoded data)) new_size maintain_aspect = inr img /\
    save_image_universal img output_path quality w = (w', Return save_result) /\
    save_result !! "output_path" = Some (VStr final_output_path) /\
    files w' !! final_output_path = Some written /\
    compression_ratio (Z.of_nat (length written)) (Z.of_nat (length data))
      = inr ratio /\
    r !! "original_size" = Some (VInt (Z.of_nat (length data))) /\
    r !! "compressed_size" = Some (VInt (Z.of_nat (length written))) /\
    r !! "compression_ratio" = Some ratio /\
    r !! "original_dimensions" = Some (VSize size.1 size.2) /\
    r !! "final_dimensions" = Some (VSize (im_size img).1 (im_size img).2) /\
    r !! "output_path" = Some (VStr final_output_path).
Proof.
  intros Hrun Hsuccess.
  cbv beta iota delta [compress_image try_except bind ret raise lift notify
    call getsize PIL.open getitem as_path] in Hrun.
  split_run Hrun; inversion Hrun; subst; clear Hrun;
    try (rewrite lookup_insert_eq in Hsuccess; discriminate Hsuccess).
  all: repeat match goal with E : Some _ = Some _ |- _ => injection E as <- end.
  all: eexists _, _, _, _, _, _, _, _.
  all: repeat split; try eassumption; try reflexivity.
Qed.

(** What a successful run of [estimate_compressed_size] went through. *)
Lemma estimate_compressed_size_success image_path quality new_size
  (w w' : world) (r : dict) :
  estimate_compressed_size image_path quality new_size w = (w', Return r) ->
  r !! "success" = Some (VBool true) ->
  exists (data buffer : bytes) ratio,
    files w !! image_path = Some data /\
    compression_ratio (Z.of_nat (length buffer)) (Z.of_nat (length data))
      = inr ratio /\
    r !! "estimated_size" = Some (VInt (Z.of_nat (length buffer))) /\
    r !! "original_size" = Some (VInt (Z.of_nat (length data))) /\
    r !! "compression_ratio" = Some ratio.
Proof.
  intros Hrun Hsuccess.
  cbv beta iota delta [estimate_compressed_size try_except bind ret raise lift
    getsize PIL.open] in Hrun.
  split_run Hrun; inversion Hrun; subst; clear Hrun;
    try (rewrite lookup_insert_eq in Hsuccess; discriminate Hsuccess).
  all: repeat match goal with E : Some _ = Some _ |- _ => injection E as <- end.
  all: eexists _, _, _.
  all: repeat split; try eassumption; try reflexivity.
Qed.

(** The guard [original_size > 0] makes the computation total on sizes,
    and its value is the one the specification words. *)
Lemma compression_ratio_total (final_size original_size : Z) :
  0 <= original_size ->
  compression_ratio final_size original_size
    = inr (spec_compression_ratio final_size original_size).
Proof.
  intros Hpos. unfold compression_ratio, spec_compression_ratio, PyNum.truediv.
  destruct (original_size >? 0) eqn:Hgt;
    destruct (original_size =? 0) eqn:Hz; try reflexivity; lia.
Qed.

(** C7. The ratio computation never raises (no division by zero) and is [0]
    for an empty original; every successful conversion and every successful
    estimate reports, with its two sizes, the ratio
    [(1 - final/original) * 100] of these sizes. *)
Theorem compression_ratio_reported :
  (forall final_size original_size, 0 <= original_size ->
     compression_ratio final_size original_size
       = inr (spec_compression_ratio final_size original_size)) /\
  (forall final_size, spec_compression_ratio final_size 0 = VInt 0) /\
  (forall input_path output_path quality new_size maintain_aspect
          progress_callback (w w' : world) (r : dict),
     compress_image input_path output_path quality new_size maintain_aspect
       progress_callback w = (w', Return r) ->
     r !! "success" = Some (VBool true) ->
     exists original_size final_size,
       r !! "original_size" = Some (VInt original_size) /\
       r !! "compressed_size" = Some (VInt final_size) /\
       r !! "compression_ratio"
         = Some (spec_compression_ratio final_size original_size)) /\
  (forall image_path quality new_size (w w' : world) (r : dict),
     estimate_compressed_size image_path quality new_size w = (w', Return r) ->
     r !! "success" = Some (VBool true) ->
     exists original_size final_size,
       r !! "original_size" = Some (VInt original_size) /\
       r !! "estimated_size" = Some (VInt final_size) /\
       r !! "compression_ratio"
         = Some (spec_compression_ratio final_size original_size)).
Proof.
  split; [exact compression_ratio_total|]. split; [reflexivity|]. split.
  - intros input_path output_path quality new_size maintain_aspect
      progress_callback w w' r Hrun Hsuccess.
    destruct (compress_image_success _ _ _ _ _ _ _ _ _ Hrun Hsuccess)
      as (data & mode & size & img & save_result & final_output_path & written
          & ratio & _ & _ & _ & _ & _ & _ & Hratio & Ho & Hc & Hr & _).
    rewrite compression_ratio_total in Hratio by lia.
    injection Hratio as <-. eauto.
  - intros image_path quality new_size w w' r Hrun Hsuccess.
    destruct (estimate_compressed_size_success _ _ _ _ _ _ Hrun Hsuccess)
      as (data & buffer & ratio & _ & Hratio & He & Ho & Hr).
    rewrite compression_ratio_total in Hratio by lia.
    injection Hratio as <-. eauto.
Qed.


(** C10. Target dimensions [(0, 0)] switch resizing off: both operations
    behave exactly as without target dimensions, and a successful conversion
    reports final dimensions equal to the original ones. *)
Theorem zero_size_disables_resizing :
  (forall img maintain_aspect, resized img (Some (0, 0)) maintain_aspect = inr img) /\
  (forall input_path output_path quality maintain_aspect progress_callback,
     compress_image input_path output_path quality (Some (0, 0))
       maintain_aspect progress_callback
     = compress_image input_path output_path quality None
         maintain_aspect progress_callback) /\
  (forall image_path quality,
     estimate_compressed_size image_path quality (Some (0, 0))
     = estimate_compressed_size image_path quality None) /\
  (forall input_path output_path quality maintain_aspect progress_callback
          (w w' : world) (r : dict),
     compress_image input_path output_path quality (Some (0, 0))
       maintain_aspect progress_callback w = (w', Return r) ->
     r !! "success" = Some (VBool true) ->
     exists width height,
       r !! "original_dimensions" = Some (VSize width height) /\
       r !! "final_dimensions" = Some (VSize width height)).
Proof.
  split; [reflexivity|]. split; [reflexivity|]. split; [reflexivity|].
  intros input_path output_path quality maintain_aspect progress_callback
    w w' r Hrun Hsuccess.
  destruct (compress_image_success _ _ _ _ _ _ _ _ _ Hrun Hsuccess)
    as (data & mode & [ow oh] & img & save_result & final_output_path & written
        & ratio & _ & _ & Hresized & _ & _ & _ & _ & _ & _ & _ & Ho & Hf & _).
  injection Hresized as <-. eauto.
Qed.


(** C9. [estimate_compressed_size] leaves the world as it found it (no file
    is created, changed or removed), and what it returns depends on nothing
    in the file system but the content of the source file. *)
Theorem estimate_compressed_size_reads_only image_path quality new_size
  (w : world) :
  (estimate_compressed_size image_path quality new_size w).1 = w /\
  (forall w2 : world,
     files w2 !! image_path = files w !! image_path ->
     (estimate_compressed_size image_path quality new_size w2).2
     = (estimate_compressed_size image_path quality new_size w).2).
Proof.
  split.
  - cbv beta iota delta [estimate_compressed_size try_except bind ret raise
      lift getsize PIL.open].
    split_goal; reflexivity.
  - intros w2 Hsame.
    cbv beta iota delta [estimate_compressed_size try_except bind ret raise
      lift getsize PIL.open].
    rewrite Hsame. split_goal;
      repeat match goal with
        | E : Some _ = Some _ |- _ => injection E as ?; subst
        end;
      congruence.
Qed.

End Engine.

(** ** The batch *)

Section BatchFacts.
Import FormatHandler CompressionEngine.
Context `{Backend}.
Variables (output_dir output_format : string) (quality : Z)
  (new_size : option (Z * Z)) (maintain_aspect : bool)
  (progress_callback : option (string -> option pyval -> option exn))
  (image_callback : option (string -> pyval -> dict -> option exn))
  (total_images : Z).

Local Abbreviation item_of := (batch_item output_dir output_format quality new_size
  maintain_aspect progress_callback image_callback total_images).
Local Abbreviation loop := (batch_loop output_dir output_format quality new_size
  maintain_aspect progress_callback image_callback total_images).
Local Abbreviation process := (process_image output_dir output_format quality new_size
  maintain_aspect progress_callback image_callback total_images).

(** An iteration always ends by appending one dictionary. *)
Lemma batch_item_returns (i : Z) (input_path : string) (w : world) :
  exists w' item, item_of i input_path w = (w', Return item).
Proof.
  unfold batch_item, try_except.
  destruct (process i input_path w) as [w' [d|e]]; eauto.
Qed.

(** An exception anywhere in the iteration becomes that item's failure. *)
Lemma batch_item_failure (i : Z) (input_path : string) (w w' : world) (e : exn) :
  process i input_path w = (w', Raise e) ->
  item_of i input_path w = (w', Return (error_result input_path e)) /\
  error_result input_path e !! "success" = Some (VBool false).
Proof.
  intros Hraise. unfold batch_item, try_except. rewrite Hraise.
  split; reflexivity.
Qed.

Lemma batch_loop_cons (i : Z) (input_path : string) (rest : list string)
  (results : list dict) (w w1 : world) (item : dict) :
  item_of i input_path w = (w1, Return item) ->
  loop i (input_path :: rest) results w
  = loop (i + 1) rest (results ++ [item])%list w1.
Proof.
  intros Hitem. simpl. unfold bind at 1. rewrite Hitem. reflexivity.
Qed.



End BatchFacts.

Section BatchResult.
Import FormatHandler CompressionEngine.
Context `{Backend}.


End BatchResult.

(** ** The engine on concrete inputs *)


Module Runs.
Import FormatHandler CompressionEngine.


Lemma convert_plain :
  @compress_image Demo.backend "in/photo.png" "out/photo.jpg" 85 None true None
    Demo.disk
  = (write_file Demo.disk "out/photo.jpg" Demo.jpeg_data, Return (Demo.converted 4 3)).
Proof. by_evaluation. Qed.


Lemma convert_stretched :
  @compress_image Demo.backend "in/photo.png" "out/photo.jpg" 85 (Some (8, 1))
    false None Demo.disk
  = (write_file Demo.disk "out/photo.jpg" Demo.jpeg_data, Return (Demo.converted 8 1)).
Proof. by_evaluation. Qed.

Lemma convert_zero_size :
  @compress_image Demo.backend "in/photo.png" "out/photo.jpg" 85 (Some (0, 0))
    false None Demo.disk
  = (write_file Demo.disk "out/photo.jpg" Demo.jpeg_data, Return (Demo.converted 4 3)).
Proof. by_evaluation. Qed.

(** A negative requested height: [thumbnail] enlarges the 4x3 image to 5x4. *)
Lemma convert_negative_height :
  @compress_image Demo.backend "in/photo.png" "out/photo.jpg" 85 (Some (5, -1))
    true None Demo.disk
  = (write_file Demo.disk "out/photo.jpg" Demo.jpeg_data, Return (Demo.converted 5 4)).
Proof. by_evaluation. Qed.

(** The sizes Pillow computes in binary64 where the exact quotients tie *)
Lemma thumbnail_sizes_in_binary64 :
  PIL.preserve_aspect_ratio (2, 4) (2, 3) = inr (Some (2, 3)) /\
  PIL.preserve_aspect_ratio (1125, 2436) (1000, 1218) = inr (Some (563, 1218)) /\
  PIL.preserve_aspect_ratio (4000, 3000) (1920, 1080) = inr (Some (1440, 1080)).
Proof. repeat split; vm_compute; reflexivity. Qed.

(** [Binary64.round] against the kernel's floats on the quotients above *)
Lemma quotients_as_kernel_floats :
  Binary64.to_float (Binary64.quotient 1 3) = PrimFloat.div 1 3 /\
  Binary64.to_float (Binary64.quotient 2 3) = PrimFloat.div 2 3 /\
  Binary64.to_float (Binary64.quotient 1125 2436) = PrimFloat.div 1125 2436 /\
  Binary64.to_float (Binary64.quotient 562 1218) = PrimFloat.div 562 1218 /\
  Binary64.to_float (Binary64.quotient 563 1218) = PrimFloat.div 563 1218 /\
  Binary64.to_float
    (Binary64.mul (Binary64.of_int 1218) (Binary64.quotient 1125 2436))
  = PrimFloat.mul 1218 (PrimFloat.div 1125 2436) /\
  Binary64.to_float
    (Binary64.sub (Binary64.quotient 1125 2436) (Binary64.quotient 563 1218))
  = PrimFloat.sub (PrimFloat.div 1125 2436) (PrimFloat.div 563 1218).
Proof. repeat split; vm_compute; reflexivity. Qed.

(** A progress callback that raises on the closing notification: the
    image is converted and the call ends in the exception. *)
Lemma closing_notification_raises :
  @compress_multiple_images Demo.backend ["in/photo.png"] "out" ".jpg" 85 None
    true (Some Demo.closing_fails) None Demo.disk
  = (write_file Demo.disk "out/photo.jpg" Demo.jpeg_data,
     Raise "progress display closed").
Proof. by_evaluation. Qed.

(** A batch of three: the first converts, the second fails in the progress
    callback, the third has no source file; all three are reported, and the
    first and only the first is written. *)
Lemma batch_of_three :
  let run :=
    @compress_multiple_images Demo.backend
      ["in/photo.png"; "in/gray.png"; "in/none.png"] "out" ".jpg" 85 None true
      (Some Demo.flaky_progress) None Demo.disk in
  match run.2 with
  | Return results => (fun r : dict => (r !! "success", r !! "error")) <$> results
  | Raise _ => []
  end
  = [ (Some (VBool true), None);
      (Some (VBool false), Some (VStr "progress display failed"));
      (Some (VBool false),
       Some (VStr "[Errno 2] No such file or directory: 'in/none.png'")) ]
  /\ run.1 = write_file Demo.disk "out/photo.jpg" Demo.jpeg_data.
Proof. split; by_evaluation. Qed.

(** With the name and its hundred copies taken, the stamped name is
    returned although a file of that name exists. *)
Lemma allocate_on_crowded_disk :
  path_exists Demo.crowded_disk "d/a_copy100.png" = true /\
  path_exists Demo.crowded_disk "d/a_1700000000.png" = true /\
  generate_unique_filename Demo.crowded_disk "d/a.png" = "d/a_1700000000.png".
Proof. repeat split; by_evaluation. Qed.

End Runs.

Lemma generate_unique_filename_allocates_witness :
  generate_unique_filename
    (World (<["d/a.png" := []]> (<["d/a_copy1.png" := []]> ∅)) 1700000000)
    "d/a.png" = "d/a_copy2.png".
Proof.
  pose proof (generate_unique_filename_allocates
                (World (<["d/a.png" := []]> (<["d/a_copy1.png" := []]> ∅))
                       1700000000)
                "d/a.png" "d" "a" ".png" eq_refl eq_refl) as (_ & Hcopy & _).
  apply (Hcopy eq_refl 2); [lia | | reflexivity].
  intros j Hj. assert (j = 1) as -> by lia. reflexivity.
Defined.

Lemma compression_ratio_reported_witness :
  exists original_size final_size,
    Demo.converted 4 3 !! "original_size" = Some (VInt original_size) /\
    Demo.converted 4 3 !! "compressed_size" = Some (VInt final_size) /\
    Demo.converted 4 3 !! "compression_ratio"
      = Some (CompressionEngine.spec_compression_ratio final_size original_size).
Proof.
  destruct (@compression_ratio_reported Demo.backend) as (_ & _ & Hconv & _).
  exact (Hconv _ _ _ _ _ _ _ _ _ Runs.convert_plain eq_refl).
Defined.


(** C8 as it was worded fails for a negative requested dimension: with
    aspect preservation on, the request [(5, -1)] turns the 4x3 image into
    a 5x4 one, wider and higher than the original. *)
Lemma resize_negative_request_enlarges :
  exists r,
    @CompressionEngine.compress_image Demo.backend "in/photo.png"
      "out/photo.jpg" 85 (Some (5, -1)) true None Demo.disk
    = (write_file Demo.disk "out/photo.jpg" Demo.jpeg_data, Return r) /\
    r !! "success" = Some (VBool true) /\
    r !! "original_dimensions" = Some (VSize 4 3) /\
    r !! "final_dimensions" = Some (VSize 5 4) /\
    ~ (5 <= 4 /\ 4 <= 3).
Proof.
  exists (Demo.converted 5 4).
  split; [exact Runs.convert_negative_height|].
  repeat split. lia.
Defined.

Lemma zero_size_disables_resizing_witness :
  exists width height,
    Demo.converted 4 3 !! "original_dimensions" = Some (VSize width height) /\
    Demo.converted 4 3 !! "final_dimensions" = Some (VSize width height).
Proof.
  destruct (@zero_size_disables_resizing Demo.backend) as (_ & _ & _ & Hsame).
  exact (Hsame _ _ _ _ _ _ _ _ Runs.convert_zero_size eq_refl).
Defined.

Lemma estimate_compressed_size_reads_only_witness :
  let w2 := write_file Demo.disk "out/other.jpg" Demo.jpeg_data in
  (@CompressionEngine.estimate_compressed_size Demo.backend
     "in/photo.png" 85 (Some (2, 2)) Demo.disk).1 = Demo.disk /\
  (@CompressionEngine.estimate_compressed_size Demo.backend
     "in/photo.png" 85 (Some (2, 2)) w2).2
  = (@CompressionEngine.estimate_compressed_size Demo.backend
       "in/photo.png" 85 (Some (2, 2)) Demo.disk).2.
Proof.
  intros w2.
  destruct (@estimate_compressed_size_reads_only Demo.backend
              "in/photo.png" 85 (Some (2, 2)) Demo.disk) as (Hsame & Hdep).
  split; [exact Hsame | apply Hdep; reflexivity].
Defined.


(** C3 as it was worded fails when the closing progress notification
    raises: the image has been converted, and no list is returned. *)
Lemma closing_notification_aborts_batch :
  exists w' e,
    @CompressionEngine.compress_multiple_images Demo.backend ["in/photo.png"]
      "out" ".jpg" 85 None true (Some Demo.closing_fails) None Demo.disk
    = (w', Raise e) /\
    path_exists w' "out/photo.jpg" = true.
Proof.
  exists (write_file Demo.disk "out/photo.jpg" Demo.jpeg_data),
         "progress display closed".
  split; [exact Runs.closing_notification_raises | reflexivity].
Defined.
(** * The allocator, the handler and the engine on the file system *)

(** ** Fresh names *)

(** From any counter on, the loop ends on a name that is free, or all names
    from the counter to 100 are taken and the stamped name is returned. *)
Lemma copy_loop_fresh_or_exhausted w d n e (steps : nat) :
  forall c, 100 = c + Z.of_nat steps ->
    path_exists w (copy_loop w d n e c) = false \/
    (copy_loop w d n e c = stamped_path d n e (clock w) /\
     forall j, c <= j <= 100 -> path_exists w (copy_path d n e j) = true).
Proof.
  induction steps as [|steps IH]; intros c Hc; rewrite copy_loop_step;
    destruct (path_exists w (copy_path d n e c)) eqn:Hhere;
    try (left; exact Hhere);
    destruct (decide (c + 1 > 100)) as [Hgt|Hle]; try lia.
  - right. split; [reflexivity|]. intros j Hj. assert (j = c) as -> by lia.
    exact Hhere.
  - destruct (IH (c + 1) ltac:(lia)) as [Hfree|[Hst Hbusy]]; [left; exact Hfree|].
    right. split; [exact Hst|]. intros j Hj.
    destruct (decide (j = c)) as [->|Hne]; [exact Hhere | apply Hbusy; lia].
Qed.

(** X1. As long as the requested name or one of its hundred copy names is
    free, the name [generate_unique_filename] returns does not exist: a
    caller that writes to it overwrites nothing. *)
Theorem generate_unique_filename_fresh (w : world) (output_path : string) :
  (path_exists w output_path = false \/
   exists k, 1 <= k <= 100 /\
     path_exists w
       (copy_path (PosixPath.dirname output_path)
          (PosixPath.splitext (PosixPath.basename output_path)).1
          (PosixPath.splitext (PosixPath.basename output_path)).2 k) = false) ->
  path_exists w (generate_unique_filename w output_path) = false.
Proof.
  intros Hroom. unfold generate_unique_filename.
  destruct (path_exists w output_path) eqn:Hhere; simpl; [|exact Hhere].
  destruct Hroom as [Hfree|(k & Hk & Hfree)]; [discriminate|].
  destruct (PosixPath.splitext (PosixPath.basename output_path)) as [name ext].
  simpl in Hfree.
  destruct (copy_loop_fresh_or_exhausted w (PosixPath.dirname output_path)
              name ext 99 1 ltac:(lia)) as [Hok|[_ Hbusy]]; [exact Hok|].
  rewrite (Hbusy k Hk) in Hfree. discriminate.
Qed.

(** ** What [save_image_universal] does to the files *)

Section SaveEffect.
Import FormatHandler.
Context `{Backend}.

Lemma path_exists_write_file (w : world) (p : string) (data : bytes) :
  path_exists (write_file w p data) p = true.
Proof. unfold path_exists, write_file. simpl. rewrite lookup_insert_eq. reflexivity. Qed.

Lemma truncated_fresh (w : world) (p : string) :
  path_exists w p = false -> truncated w p = w.
Proof. intros Hp. unfold truncated. rewrite Hp. reflexivity. Qed.

(** Every run returns a dictionary.  A success names the one file written,
    which is the requested unique name or its PNG sibling; a failure leaves
    the world as it was, up to the truncation of a file an encoder failed
    on ([w0] is the world after a failed first attempt). *)
Lemma save_image_universal_effect (img : image) (output_path : string)
  (quality : Z) (w : world) :
  let ext := PyStr.lower (PosixPath.splitext output_path).2 in
  let unique_path := generate_unique_filename w output_path in
  exists w' d w0,
    save_image_universal img output_path quality w = (w', Return d) /\
    (w0 = w \/ w0 = truncated w unique_path) /\
    let png_path :=
      generate_unique_filename w0 (PyStr.replace unique_path ext ".png") in
    ((d !! "success" = Some (VBool true) /\
      (exists m, d !! "message" = Some (VStr m)) /\
      exists p data,
        d !! "output_path" = Some (VStr p) /\
        ((p = unique_path /\ w' = write_file w p data) \/
         (p = png_path /\ w' = write_file w0 p data)))
     \/
     (d !! "success" = Some (VBool false) /\
      (exists e, d !! "error" = Some (VStr e)) /\
      (exists m, d !! "message" = Some (VStr m)) /\
      (w' = w0 \/ w' = truncated w0 png_path))).
Proof.
  intros ext unique_path.
  destruct (save_image_universal img output_path quality w) as [w' o] eqn:Hrun.
  unfold save_image_universal, save_by_extension in Hrun.
  fold ext in Hrun. clearbody ext.
  split_on ext Hrun;
    cbv beta iota delta [save_as_pdf save_as_svg save_as_eps
      save_with_wand fallback_to_png create_file
      unique_filename try_except bind ret raise lift PIL.save] in Hrun;
    fold unique_path in Hrun;
    split_run Hrun; injection Hrun as <- <-; close_run.
Qed.

(** When the unique name and its PNG sibling are free, a run writes one new
    file or none: a success creates the file it reports and a failure
    leaves the world as it was. *)
Lemma save_image_universal_on_fresh_names (img : image) (output_path : string)
  (quality : Z) (w : world) :
  let ext := PyStr.lower (PosixPath.splitext output_path).2 in
  let unique_path := generate_unique_filename w output_path in
  let png_path :=
    generate_unique_filename w (PyStr.replace unique_path ext ".png") in
  path_exists w unique_path = false ->
  path_exists w png_path = false ->
  exists w' d,
    save_image_universal img output_path quality w = (w', Return d) /\
    ((d !! "success" = Some (VBool true) /\
      exists p data,
        d !! "output_path" = Some (VStr p) /\
        path_exists w p = false /\
        w' = write_file w p data)
     \/
     (d !! "success" = Some (VBool false) /\ w' = w)).
Proof.
  intros ext unique_path png_path Hunique Hpng.
  destruct (save_image_universal_effect img output_path quality w)
    as (w' & d & w0 & Hrun & Hw0 & Hcases).
  fold ext unique_path in Hw0, Hcases. cbv zeta in Hcases.
  assert (w0 = w) as ->.
  { destruct Hw0 as [->| ->]; [reflexivity | apply truncated_fresh, Hunique]. }
  fold png_path in Hcases.
  exists w', d. split; [exact Hrun|].
  destruct Hcases as [(Hs & _ & p & data & Hp & Hw)|(Hs & _ & _ & Hw)].
  - left. split; [exact Hs|]. exists p, data. split; [exact Hp|].
    destruct Hw as [[-> ->]|[-> ->]]; split; auto.
  - right. split; [exact Hs|].
    destruct Hw as [->| ->]; [reflexivity | apply truncated_fresh, Hpng].
Qed.

(** X2. [save_image_universal] never raises: every call returns a
    dictionary, which is a success with a message and the path of a file
    that exists afterwards, or a failure with an error and a message. *)
Theorem save_image_universal_result (img : image) (output_path : string)
  (quality : Z) (w : world) :
  exists w' d,
    save_image_universal img output_path quality w = (w', Return d) /\
    ((d !! "success" = Some (VBool true) /\
      (exists m, d !! "message" = Some (VStr m)) /\
      exists p, d !! "output_path" = Some (VStr p) /\ path_exists w' p = true)
     \/
     (d !! "success" = Some (VBool false) /\
      (exists e, d !! "error" = Some (VStr e)) /\
      (exists m, d !! "message" = Some (VStr m)))).
Proof.
  destruct (save_image_universal_effect img output_path quality w)
    as (w' & d & w0 & Hrun & _ & Hcases).
  exists w', d. split; [exact Hrun|]. cbv zeta in Hcases.
  destruct Hcases as [(Hs & Hm & p & data & Hp & Hw)|(Hs & He & Hm & _)].
  - left. split; [exact Hs|]. split; [exact Hm|]. exists p. split; [exact Hp|].
    destruct Hw as [[_ ->]|[_ ->]]; apply path_exists_write_file.
  - right. split; [exact Hs|]. split; [exact He | exact Hm].
Qed.

(** X3. Two successful saves under one requested name give two different
    files: the second save (made while a name is left for it) reports
    another path, both files exist afterwards, and the first file is as the
    first save left it. *)
Theorem save_image_universal_twice (img1 img2 : image) (output_path : string)
  (quality1 quality2 : Z) (w w1 w2 : world) (d1 d2 : dict) (p1 p2 : string) :
  let ext := PyStr.lower (PosixPath.splitext output_path).2 in
  let unique_path := generate_unique_filename w1 output_path in
  let png_path :=
    generate_unique_filename w1 (PyStr.replace unique_path ext ".png") in
  save_image_universal img1 output_path quality1 w = (w1, Return d1) ->
  d1 !! "success" = Some (VBool true) ->
  d1 !! "output_path" = Some (VStr p1) ->
  path_exists w1 unique_path = false ->
  path_exists w1 png_path = false ->
  save_image_universal img2 output_path quality2 w1 = (w2, Return d2) ->
  d2 !! "success" = Some (VBool true) ->
  d2 !! "output_path" = Some (VStr p2) ->
  p1 <> p2 /\ path_exists w2 p1 = true /\ path_exists w2 p2 = true /\
  files w2 !! p1 = files w1 !! p1.
Proof.
  intros ext unique_path png_path Hrun1 Hs1 Hp1 Hu Hpng Hrun2 Hs2 Hp2.
  assert (path_exists w1 p1 = true) as Hex1.
  { destruct (save_image_universal_effect img1 output_path quality1 w)
      as (w1' & d1' & w0 & Hrun1' & _ & Hcases).
    rewrite Hrun1 in Hrun1'. injection Hrun1' as <- <-. cbv zeta in Hcases.
    destruct Hcases as [(_ & _ & q1 & data & Hq1 & Hw)|(Hf & _)]; [|congruence].
    assert (q1 = p1) as -> by congruence.
    destruct Hw as [[_ ->]|[_ ->]]; apply path_exists_write_file. }
  destruct (save_image_universal_on_fresh_names img2 output_path quality2 w1
              Hu Hpng) as (w2' & d2' & Hrun2' & Hcases).
  rewrite Hrun2 in Hrun2'. injection Hrun2' as <- <-.
  destruct Hcases as [(_ & q2 & data & Hq2 & Hnew & ->)|(Hf & _)]; [|congruence].
  assert (q2 = p2) as -> by congruence.
  assert (p1 <> p2) as Hne by (intros ->; congruence).
  split; [exact Hne|].
  unfold path_exists, write_file in *. simpl.
  rewrite lookup_insert_ne by congruence. rewrite lookup_insert_eq.
  split; [exact Hex1|]. split; reflexivity.
Qed.

(** X4. PDF, SVG and EPS targets are written by their own library or not
    at all: the result never carries a [fallback] entry (there is no PNG
    redirection), a reported path is the unique name of the requested one,
    and when the library is not installed the call fails and writes
    nothing. *)
Theorem specialized_formats_never_fall_back (img : image)
  (output_path : string) (quality : Z) (w w' : world) (d : dict) :
  let ext := PyStr.lower (PosixPath.splitext output_path).2 in
  ext ∈ [".pdf"; ".svg"; ".eps"] ->
  save_image_universal img output_path quality w = (w', Return d) ->
  d !! "fallback" = None /\
  (forall p, d !! "output_path" = Some (VStr p) ->
     p = generate_unique_filename w output_path) /\
  ((ext = ".pdf" /\ reportlab = None) \/ (ext <> ".pdf" /\ wand = None) ->
   d !! "success" = Some (VBool false) /\ w' = w).
Proof.
  intros ext Hext Hrun. unfold save_image_universal in Hrun. fold ext in Hrun.
  clearbody ext.
  repeat (apply elem_of_cons in Hext as [->|Hext]);
    [ .. | apply elem_of_nil in Hext; contradiction ];
    cbn [String.eqb Ascii.eqb Bool.eqb] in Hrun;
    cbv beta iota delta [save_as_pdf save_as_svg save_as_eps save_with_wand
      create_file unique_filename try_except bind ret raise lift] in Hrun;
    split_run Hrun; inversion Hrun; subst; clear Hrun;
    (split; [reflexivity|]);
    (split; [intros p Hp; first [discriminate Hp | injection Hp as <-; reflexivity]|]);
    intros [[Hx Hlib]|[Hx Hlib]];
    first [ congruence | split; reflexivity ].
Qed.

(** X5. A JPEG or PNG target whose preparation goes through (no
    conversion that Pillow lacks) and whose encoder accepts the prepared
    image: the encoder is called on the flattened (JPEG) or prepared (PNG)
    image with the options of the source, its output is the one file
    written, at the unique name, and the result is the success dictionary
    without a [fallback] entry. *)
Theorem native_jpeg_png_written (img prepared : image) (output_path : string)
  (quality : Z) (w : world) (handler : image -> params -> exn + bytes)
  (data : bytes) :
  let ext := PyStr.lower (PosixPath.splitext output_path).2 in
  let unique_path := generate_unique_filename w output_path in
  creatable unique_path = true ->
  (ext ∈ [".jpg"; ".jpeg"] /\
   try_flatten_for_jpeg img = inr prepared /\
   SAVE "JPEG" = Some handler /\
   handler prepared
     [("quality", VInt quality); ("optimize", VBool true);
      ("progressive", VBool true)] = inr data)
  \/
  (ext = ".png" /\
   try_prepare_for_png img = inr prepared /\
   SAVE "PNG" = Some handler /\
   handler prepared
     [("optimize", VBool true); ("compress_level", VInt 9)] = inr data) ->
  prepared = (if bool_decide (ext ∈ [".jpg"; ".jpeg"])
              then flatten_for_jpeg img else prepare_for_png img) /\
  save_image_universal img output_path quality w =
    (write_file w unique_path data,
     Return {[ "success" := VBool true;
               "output_path" := VStr unique_path;
               "message" := VStr ("✅ Guardado como " ++ PyStr.upper ext) ]}).
Proof.
  intros ext unique_path Hcreate Hcase.
  unfold save_image_universal. fold ext.
  destruct Hcase as [(Hext & Hprep & Hsave & Hdata)|(Hext & Hprep & Hsave & Hdata)].
  - split.
    { rewrite bool_decide_eq_true_2 by exact Hext.
      apply try_flatten_for_jpeg_image. exact Hprep. }
    clearbody ext.
    repeat (apply elem_of_cons in Hext as [->|Hext]);
      [ .. | apply elem_of_nil in Hext; contradiction ];
      unfold save_by_extension; decide_elems;
      cbn [String.eqb Ascii.eqb Bool.eqb];
      cbv beta iota delta [try_except bind unique_filename PIL.save ret lift];
      change (PyStr.upper "JPEG") with "JPEG"; fold unique_path;
      rewrite Hprep; cbv beta iota;
      rewrite Hsave, Hcreate, Hdata; reflexivity.
  - split.
    { rewrite Hext. rewrite bool_decide_eq_false_2 by compute_done.
      apply try_prepare_for_png_image. exact Hprep. }
    clearbody ext. subst ext.
    unfold save_by_extension; decide_elems;
      cbn [String.eqb Ascii.eqb Bool.eqb];
      cbv beta iota delta [try_except bind unique_filename PIL.save ret lift];
      change (PyStr.upper "PNG") with "PNG"; fold unique_path;
      rewrite Hprep; cbv beta iota;
      rewrite Hsave, Hcreate, Hdata; reflexivity.
Qed.

(** X18. The format table and the dispatch agree: the answer for an
    unrecognized format is given for exactly the extensions outside
    [SUPPORTED_FORMATS].  Every listed extension has a case of its own in
    the [if]/[elif] chain, and whatever that case does, its result carries
    another message. *)
Theorem unrecognized_iff_unsupported (img : image) (output_path : string)
  (quality : Z) (w w' : world) (d : dict) :
  let ext := PyStr.lower (PosixPath.splitext output_path).2 in
  save_image_universal img output_path quality w = (w', Return d) ->
  (d !! "message"
   = Some (VStr ("❌ Formato " ++ PyStr.upper ext ++ " no reconocido"))
   <-> ext ∉ SUPPORTED_FORMATS).
Proof.
  intros ext Hrun. split.
  - intros Hmsg Hext.
    unfold save_image_universal, save_by_extension in Hrun.
    fold ext in Hrun, Hmsg. clearbody ext.
    split_on ext Hrun;
      cbv beta iota delta [save_as_pdf save_as_svg save_as_eps
        save_with_wand fallback_to_png create_file
        unique_filename try_except bind ret raise lift PIL.save] in Hrun;
      split_run Hrun; injection Hrun as <- <-;
      message_of Hmsg; try discriminate Hmsg;
      clear Hmsg; outside_table Hext.
  - intros Hext.
    unfold save_image_universal, save_by_extension in Hrun. fold ext in Hrun.
    rewrite !(eqb_unsupported ext _ Hext) in Hrun by compute_done.
    rewrite !(elem_unsupported ext _ Hext) in Hrun by compute_done.
    injection Hrun as <- <-. reflexivity.
Qed.

End SaveEffect.

(** ** Outcomes of [compress_image] *)

Section EngineOutcomes.
Import FormatHandler CompressionEngine.
Context `{Backend}.

(** Every run returns a dictionary.  Either it failed before the save, and
    the world is untouched, or the source was read, decoded and resized and
    the handler ran: then the result is an [except] dictionary, the failure
    of the save, or a success. *)
Lemma compress_image_cases input_path output_path quality new_size
  maintain_aspect progress_callback (w : world) :
  exists w' r,
    compress_image input_path output_path quality new_size maintain_aspect
      progress_callback w = (w', Return r) /\
    ((exists e, r = caught e /\ w' = w)
     \/
     (exists (data : bytes) mode size img o,
        files w !! input_path = Some data /\
        decode data = inr (mode, size) /\
        resized (Image mode size (Decoded data)) new_size maintain_aspect
          = inr img /\
        save_image_universal img output_path quality w = (w', o) /\
        ((exists e, r = caught e)
         \/ (exists save_result,
               o = Return save_result /\ r = save_failed save_result /\
               exists v, save_result !! "success" = Some v /\ truthy v = false)
         \/ (exists save_result v,
               o = Return save_result /\
               save_result !! "success" = Some v /\ truthy v = true /\
               r !! "success" = Some (VBool true))))).
Proof.
  destruct (compress_image input_path output_path quality new_size
              maintain_aspect progress_callback w) as [w' o] eqn:Hrun.
  cbv beta iota delta [compress_image try_except bind ret raise lift notify
    call getsize PIL.open getitem as_path] in Hrun.
  split_run Hrun; inversion Hrun; subst; clear Hrun;
    repeat match goal with E : Some _ = Some _ |- _ => injection E as <- end;
    eexists _, _; (split; [reflexivity|]); close_compress.
Qed.

Lemma caught_lookups (e : exn) :
  caught e !! "success" = Some (VBool false) /\
  caught e !! "error" = Some (VStr e) /\
  caught e !! "message" = Some (VStr ("❌ Error: " ++ e)) /\
  caught e !! "output_path" = None.
Proof. repeat split. Qed.

(** The two entries a history entry is built from: every result has a
    [success] entry, and its [output_path], when there is one, is a string. *)
Lemma compress_image_keys input_path output_path quality new_size
  maintain_aspect progress_callback (w w' : world) (r : dict) :
  compress_image input_path output_path quality new_size maintain_aspect
    progress_callback w = (w', Return r) ->
  (exists success, r !! "success" = Some success) /\
  (r !! "output_path" = None \/ exists p, r !! "output_path" = Some (VStr p)).
Proof.
  intros Hrun.
  destruct (compress_image_cases input_path output_path quality new_size
              maintain_aspect progress_callback w)
    as (w1 & r1 & Hrun1 & Hcases).
  rewrite Hrun in Hrun1. injection Hrun1 as <- <-.
  destruct Hcases as [(e & -> & _)|(data & mode & size & img & o & _ & _ & _
                                    & _ & Hr)].
  - split; [eexists|left]; reflexivity.
  - destruct Hr as [(e & ->)|[(sr & _ & -> & _)|(sr & v & _ & _ & _ & Hsuccess)]].
    + split; [eexists|left]; reflexivity.
    + split; [eexists|left]; reflexivity.
    + split; [eauto|].
      destruct (compress_image_success _ _ _ _ _ _ _ _ _ Hrun Hsuccess)
        as (src & _ & _ & _ & _ & p & written & _ & _ & _ & _ & _ & _
            & _ & _ & _ & _ & _ & _ & _ & Hp).
      right. eauto.
Qed.

(** Without a progress callback nothing can fail after a successful save. *)
Lemma compress_image_completes input_path output_path quality new_size
  maintain_aspect (w w1 : world) (data written : bytes) mode size img
  (save_result r : dict) (p : string) :
  files w !! input_path = Some data ->
  decode data = inr (mode, size) ->
  resized (Image mode size (Decoded data)) new_size maintain_aspect = inr img ->
  save_image_universal img output_path quality w = (w1, Return save_result) ->
  save_result !! "success" = Some (VBool true) ->
  save_result !! "output_path" = Some (VStr p) ->
  files w1 !! p = Some written ->
  compress_image input_path output_path quality new_size maintain_aspect
    None w = (w1, Return r) ->
  r !! "success" = Some (VBool true).
Proof.
  intros Hsrc Hdec Hres Hsave Hs Hp Hout Hrun.
  cbv beta iota delta [compress_image try_except bind ret raise lift notify
    call getsize PIL.open getitem as_path] in Hrun.
  repeat (first [ rewrite Hsrc in Hrun | rewrite Hdec in Hrun
                 | rewrite Hres in Hrun | rewrite Hsave in Hrun
                 | rewrite Hs in Hrun | rewrite Hp in Hrun
                 | rewrite Hout in Hrun
                 | rewrite compression_ratio_total in Hrun by lia ];
          cbv beta iota zeta delta [truthy negb] in Hrun).
  apply (f_equal (fun run : world * outcome dict =>
                    match run.2 with
                    | Return d => d !! "success"
                    | Raise _ => None
                    end)) in Hrun.
  cbv beta iota delta [snd] in Hrun.
  rewrite lookup_insert_eq in Hrun. symmetry. exact Hrun.
Qed.

(** X6. [compress_image] never raises, and its result has one of two
    shapes: a failure with an error and a message and no [output_path], or
    a success whose [output_path] names a file that exists afterwards and
    whose two sizes are the lengths of the source file and of that file. *)
Theorem compress_image_result input_path output_path quality new_size
  maintain_aspect progress_callback (w : world) :
  exists w' r,
    compress_image input_path output_path quality new_size maintain_aspect
      progress_callback w = (w', Return r) /\
    ((r !! "success" = Some (VBool false) /\
      (exists e, r !! "error" = Some (VStr e)) /\
      (exists m, r !! "message" = Some (VStr m)) /\
      r !! "output_path" = None)
     \/
     (r !! "success" = Some (VBool true) /\
      exists p (source written : bytes),
        r !! "output_path" = Some (VStr p) /\
        files w !! input_path = Some source /\
        files w' !! p = Some written /\
        r !! "original_size" = Some (VInt (Z.of_nat (length source))) /\
        r !! "compressed_size" = Some (VInt (Z.of_nat (length written))))).
Proof.
  destruct (compress_image_cases input_path output_path quality new_size
              maintain_aspect progress_callback w)
    as (w' & r & Hrun & Hcases).
  exists w', r. split; [exact Hrun|].
  destruct Hcases as [(e & -> & _)|(data & mode & size & img & o & _ & _ & _
                                    & Hsave & Hr)].
  - left. destruct (caught_lookups e) as (? & ? & ? & ?). eauto 10.
  - destruct Hr as [(e & ->)|[(sr & -> & -> & v & Hv & Htruthy)
                                |(sr & v & _ & _ & _ & Hsuccess)]].
    + left. destruct (caught_lookups e) as (? & ? & ? & ?). eauto 10.
    + left.
      destruct (save_image_universal_effect img output_path quality w)
        as (w1 & d & w0 & Hsave' & _ & Hshape).
      rewrite Hsave in Hsave'. injection Hsave' as <- <-. cbv zeta in Hshape.
      destruct Hshape as [(Hs & _)|(_ & (e & He) & (m & Hm) & _)].
      * rewrite Hs in Hv. injection Hv as <-. discriminate Htruthy.
      * unfold save_failed, dict_get. rewrite He, Hm.
        split; [reflexivity|]. split; [eexists; reflexivity|].
        split; [eexists; reflexivity | reflexivity].
    + right. split; [exact Hsuccess|].
      destruct (compress_image_success _ _ _ _ _ _ _ _ _ Hrun Hsuccess)
        as (src & _ & _ & _ & _ & p & written & _ & Hsrc & _ & _ & _ & _
            & Hout & _ & Ho & Hc & _ & _ & _ & Hp).
      exists p, src, written. auto 10.
Qed.


(** X8. When the unique name of the destination and its PNG sibling are
    free, [compress_image] leaves the world as it was or with one more
    file, never a changed one: a success has created the file it reports,
    and (without a progress callback) a failure has written nothing. *)
Theorem compress_image_atomic input_path output_path quality new_size
  maintain_aspect progress_callback (w : world) :
  let ext := PyStr.lower (PosixPath.splitext output_path).2 in
  let unique_path := generate_unique_filename w output_path in
  let png_path :=
    generate_unique_filename w (PyStr.replace unique_path ext ".png") in
  path_exists w unique_path = false ->
  path_exists w png_path = false ->
  exists w' r,
    compress_image input_path output_path quality new_size maintain_aspect
      progress_callback w = (w', Return r) /\
    (w' = w \/
     exists p data, path_exists w p = false /\ w' = write_file w p data) /\
    (r !! "success" = Some (VBool true) ->
     exists p data,
       r !! "output_path" = Some (VStr p) /\
       path_exists w p = false /\ w' = write_file w p data) /\
    (progress_callback = None -> r !! "success" = Some (VBool false) -> w' = w).
Proof.
  intros ext unique_path png_path Hunique Hpng.
  destruct (compress_image_cases input_path output_path quality new_size
              maintain_aspect progress_callback w)
    as (w' & r & Hrun & Hcases).
  exists w', r. split; [exact Hrun|].
  destruct Hcases as [(e & -> & ->)|(data & mode & size & img & o & Hsrc & Hdec
                                     & Hres & Hsave & Hr)].
  { split; [left; reflexivity|]. split; [|reflexivity].
    intros Hs. destruct (caught_lookups e) as (Hf & _). congruence. }
  destruct (save_image_universal_on_fresh_names img output_path quality w
              Hunique Hpng) as (w1 & sr & Hsave' & Hatomic).
  rewrite Hsave in Hsave'. injection Hsave' as -> ->.
  destruct Hatomic as [(Hs & p & out & Hp & Hnew & ->)|(Hf & ->)].
  - split; [right; eauto|]. split.
    + intros Hsuccess.
      destruct (compress_image_success _ _ _ _ _ _ _ _ _ Hrun Hsuccess)
        as (data' & mode' & size' & img' & sr' & p' & written & _ & Hsrc'
            & Hdec' & Hres' & Hsave' & Hp' & _ & _ & _ & _ & _ & _ & _ & Hrp).
      assert (data' = data) as -> by congruence.
      assert (mode' = mode /\ size' = size) as [-> ->] by (split; congruence).
      assert (img' = img) as -> by congruence.
      rewrite Hsave in Hsave'. injection Hsave' as <-.
      assert (p' = p) as -> by congruence.
      exists p, out. auto.
    + intros -> Hfail. exfalso.
      assert (files (write_file w p out) !! p = Some out) as Hout
        by (unfold write_file; simpl; apply lookup_insert_eq).
      pose proof (compress_image_completes _ _ _ _ _ _ _ _ _ _ _ _ _ _ _
                    Hsrc Hdec Hres Hsave Hs Hp Hout Hrun) as Hok.
      congruence.
  - split; [left; reflexivity|]. split; [|reflexivity].
    intros Hsuccess. exfalso.
    destruct Hr as [(e & ->)|[(sr' & _ & -> & _)|(sr' & v & Ho & Hv & Ht & _)]].
    + destruct (caught_lookups e) as (Hfe & _). congruence.
    + unfold save_failed in Hsuccess. rewrite lookup_insert_eq in Hsuccess.
      discriminate.
    + injection Ho as <-. rewrite Hf in Hv. injection Hv as <-. discriminate.
Qed.

(** X9. [get_image_info] agrees with a successful conversion: asked about
    the source before the conversion it succeeds, changes nothing, and
    reports the dimensions and the file size that the conversion reports as
    [original_dimensions] and [original_size]. *)
Theorem get_image_info_agrees (image_format : bytes -> pyval)
  input_path output_path quality new_size maintain_aspect progress_callback
  (w w' : world) (r : dict) :
  compress_image input_path output_path quality new_size maintain_aspect
    progress_callback w = (w', Return r) ->
  r !! "success" = Some (VBool true) ->
  exists info,
    get_image_info image_format input_path w = (w, Return info) /\
    info !! "success" = Some (VBool true) /\
    info !! "dimensions" = r !! "original_dimensions" /\
    info !! "file_size" = r !! "original_size".
Proof.
  intros Hrun Hsuccess.
  destruct (compress_image_success _ _ _ _ _ _ _ _ _ Hrun Hsuccess)
    as (data & mode & size & img & sr & p & written & ratio & Hsrc & Hdec & _
        & _ & _ & _ & _ & Ho & _ & _ & Hd & _).
  cbv beta iota delta [get_image_info try_except bind ret raise lift getsize
    PIL.open PyNum.truediv].
  rewrite Hsrc, Hdec. simpl. rewrite Hsrc. simpl.
  eexists. split; [reflexivity|].
  rewrite Ho, Hd. repeat split.
Qed.

(** X10. [can_read_format] answers with a boolean and never raises or
    writes; it says no for a missing file, and when it says yes
    [get_image_info] succeeds on the same file. *)
Theorem can_read_format_sound (verify : bytes -> option exn)
  (image_format : bytes -> pyval) (file_path : string) (w : world) :
  exists b,
    can_read_format verify file_path w = (w, Return b) /\
    (files w !! file_path = None -> b = false) /\
    (b = true ->
     exists info,
       get_image_info image_format file_path w = (w, Return info) /\
       info !! "success" = Some (VBool true)).
Proof.
  cbv beta iota delta [can_read_format get_image_info try_except bind ret
    raise lift call getsize PIL.open PyNum.truediv].
  destruct (files w !! file_path) as [data|] eqn:Hsrc.
  - destruct (decode data) as [e|[mode size]] eqn:Hdec; simpl.
    + exists false. split; [reflexivity|]. split; [discriminate|discriminate].
    + destruct (verify data) as [e|]; simpl.
      * exists false. split; [reflexivity|]. split; discriminate.
      * exists true. split; [reflexivity|]. split; [discriminate|].
        intros _. rewrite Hsrc. simpl. eexists. split; reflexivity.
  - exists false. split; [reflexivity|]. split; [reflexivity|discriminate].
Qed.

End EngineOutcomes.

(** ** A batch towards a format that is not in the table *)

Section UnknownFormat.
Import FormatHandler CompressionEngine.
Context `{Backend}.

Lemma save_unknown_extension_unchanged (img : image) (output_path : string)
  (quality : Z) (w : world) :
  PyStr.lower (PosixPath.splitext output_path).2 ∉ SUPPORTED_FORMATS ->
  exists d,
    save_image_universal img output_path quality w = (w, Return d) /\
    d !! "success" = Some (VBool false).
Proof.
  intros Hext. unfold save_image_universal, save_by_extension.
  rewrite !(eqb_unsupported _ _ Hext) by compute_done.
  rewrite !(elem_unsupported _ _ Hext) by compute_done.
  eexists. split; reflexivity.
Qed.

Lemma compress_image_unknown_extension input_path output_path quality
  new_size maintain_aspect progress_callback (w : world) :
  PyStr.lower (PosixPath.splitext output_path).2 ∉ SUPPORTED_FORMATS ->
  exists r,
    compress_image input_path output_path quality new_size maintain_aspect
      progress_callback w = (w, Return r) /\
    r !! "success" = Some (VBool false).
Proof.
  intros Hext.
  destruct (compress_image_cases input_path output_path quality new_size
              maintain_aspect progress_callback w)
    as (w' & r & Hrun & Hcases).
  destruct Hcases as [(e & -> & ->)|(data & mode & size & img & o & _ & _ & _
                                     & Hsave & Hr)].
  - eexists. split; [exact Hrun | reflexivity].
  - destruct (save_unknown_extension_unchanged img output_path quality w Hext)
      as (d & Hsave' & Hd).
    rewrite Hsave in Hsave'. injection Hsave' as -> ->.
    exists r. split; [exact Hrun|].
    destruct Hr as [(e & ->)|[(sr & _ & -> & _)|(sr & v & Ho & Hv & Ht & _)]].
    + reflexivity.
    + reflexivity.
    + injection Ho as <-. rewrite Hd in Hv. injection Hv as <-. discriminate.
Qed.

Section Loop.
Variables (output_dir output_format : string) (quality : Z)
  (new_size : option (Z * Z)) (maintain_aspect : bool)
  (progress_callback : option (string -> option pyval -> option exn))
  (image_callback : option (string -> pyval -> dict -> option exn))
  (total_images : Z).

Lemma batch_item_unknown_extension (i : Z) (input_path : string) (w : world) :
  target_extension output_dir output_format input_path ∉ SUPPORTED_FORMATS ->
  exists r,
    batch_item output_dir output_format quality new_size maintain_aspect
      progress_callback image_callback total_images i input_path w
    = (w, Return r) /\
    r !! "success" = Some (VBool false).
Proof.
  intros Hext.
  destruct (compress_image_unknown_extension input_path
              (PosixPath.join output_dir
                 ((PosixPath.splitext (PosixPath.basename input_path)).1
                  ++ output_format))
              quality new_size maintain_aspect
              (Some (individual_progress progress_callback total_images i))
              w Hext) as (r & Hrun & Hr).
  cbv beta iota zeta delta [batch_item process_image try_except bind ret raise
    lift call getitem].
  destruct progress_callback as [cb|].
  - destruct (PyNum.truediv i total_images) as [e|q];
      [eexists; split; reflexivity|].
    match goal with |- context [cb ?m ?a] => destruct (cb m a) as [e|] end;
      [eexists; split; reflexivity|].
    rewrite Hrun.
    destruct image_callback as [icb|]; [rewrite Hr|]; simpl;
      exists r; split; auto.
  - rewrite Hrun.
    destruct image_callback as [icb|]; [rewrite Hr|]; simpl;
      exists r; split; auto.
Qed.

Lemma batch_loop_unknown_extension (image_paths : list string) :
  forall (i : Z) (results : list dict) (w : world),
    (forall input_path, input_path ∈ image_paths ->
       target_extension output_dir output_format input_path
         ∉ SUPPORTED_FORMATS) ->
    exists items,
      batch_loop output_dir output_format quality new_size maintain_aspect
        progress_callback image_callback total_images i image_paths results w
      = (w, Return (results ++ items)%list) /\
      length items = length image_paths /\
      Forall (fun r : dict => r !! "success" = Some (VBool false)) items.
Proof.
  induction image_paths as [|p rest IH]; intros i results w Hext.
  - exists []. rewrite app_nil_r. repeat split. constructor.
  - destruct (batch_item_unknown_extension i p w) as (r & Hitem & Hr).
    { apply Hext. left. }
    destruct (IH (i + 1) (results ++ [r])%list w) as (items & Hloop & Hlen & Hall).
    { intros q Hq. apply Hext. right. exact Hq. }
    exists (r :: items). split; [|split].
    + rewrite (batch_loop_cons _ _ _ _ _ _ _ _ _ _ _ _ _ _ _ Hitem), Hloop.
      rewrite <- app_assoc. reflexivity.
    + simpl. rewrite Hlen. reflexivity.
    + constructor; assumption.
Qed.

End Loop.

(** X11. A batch whose output format is not in the format table (a typo
    such as [".jpgg"], or a format without the leading dot) writes nothing
    at all: every image gets a failure result, in a list as long as the
    input, and the file system is left as it was, whatever the callbacks
    do inside the loop. *)
Theorem batch_unknown_format_writes_nothing (image_paths : list string)
  (output_dir output_format : string) (quality : Z)
  (new_size : option (Z * Z)) (maintain_aspect : bool)
  (progress_callback : option (string -> option pyval -> option exn))
  (image_callback : option (string -> pyval -> dict -> option exn))
  (w : world) :
  (forall input_path, input_path ∈ image_paths ->
     target_extension output_dir output_format input_path ∉ SUPPORTED_FORMATS) ->
  match progress_callback with
  | Some cb => cb "Compresión completada" (Some (VInt 100)) = None
  | None => True
  end ->
  exists results,
    compress_multiple_images image_paths output_dir output_format quality
      new_size maintain_aspect progress_callback image_callback w
    = (w, Return results) /\
    length results = length image_paths /\
    Forall (fun r : dict => r !! "success" = Some (VBool false)) results.
Proof.
  intros Hext Hfinal.
  destruct (batch_loop_unknown_extension output_dir output_format quality
              new_size maintain_aspect progress_callback image_callback
              (Z.of_nat (length image_paths)) image_paths 0 [] w Hext)
    as (results & Hloop & Hlen & Hall).
  exists results. split; [|split; assumption].
  unfold compress_multiple_images. unfold bind at 1. rewrite Hloop. simpl.
  destruct progress_callback as [cb|].
  - unfold bind, call. rewrite Hfinal. reflexivity.
  - reflexivity.
Qed.

End UnknownFormat.

(** * The history of conversions *)

(** ** Slices *)

Section Slices.
Context {A : Type}.

(** [l[-n:]] for [n >= 1]: the last [n] items, or all of a shorter list *)
Lemma slice_from_last (l : list A) (n : Z) :
  1 <= n ->
  PyList.slice_from l (- n) = drop (length l - Z.to_nat n) l.
Proof.
  intros Hn. unfold PyList.slice_from.
  destruct (- n <? 0) eqn:Hneg; [|lia].
  f_equal. lia.
Qed.

(** [l[-0:]] is [l[0:]], all of [l] *)
Lemma slice_from_zero (l : list A) : PyList.slice_from l (- 0) = l.
Proof. unfold PyList.slice_from. simpl. rewrite Z.min_l by lia. reflexivity. Qed.

Lemma slice_from_last_length (l : list A) (n : Z) :
  1 <= n ->
  Z.of_nat (length (PyList.slice_from l (- n))) = Z.min n (Z.of_nat (length l)).
Proof.
  intros Hn. rewrite slice_from_last by exact Hn. rewrite length_drop. lia.
Qed.

Lemma slice_from_last_fits (l : list A) (n : Z) :
  1 <= n -> Z.of_nat (length l) <= n -> PyList.slice_from l (- n) = l.
Proof.
  intros Hn Hfit. rewrite slice_from_last by exact Hn.
  replace (length l - Z.to_nat n)%nat with 0%nat by lia. reflexivity.
Qed.

Lemma slice_from_last_snoc (l : list A) (x : A) (n : Z) :
  1 <= n -> last (PyList.slice_from (l ++ [x]) (- n)) = Some x.
Proof.
  intros Hn. rewrite slice_from_last by exact Hn.
  rewrite length_app. simpl.
  rewrite drop_app_le by lia. apply last_snoc.
Qed.

End Slices.

(** ** [HistoryManager] *)

Section History.
Import FormatHandler CompressionEngine HistoryManager.
Context `{Backend}.
Variable json_dump : list dict -> bytes.

(** The entry is built whenever the result has no [output_path] or a
    string there, and it copies the result's outcome. *)
Lemma make_entry_defined (timestamp : string) (compression_result : dict)
  (input_path : string) :
  (compression_result !! "output_path" = None \/
   exists p, compression_result !! "output_path" = Some (VStr p)) ->
  exists entry,
    make_entry timestamp compression_result input_path = inr entry /\
    entry !! "timestamp" = Some (VStr timestamp) /\
    entry !! "input_path" = Some (VStr input_path) /\
    entry !! "success"
      = Some (dict_get compression_result "success" (VBool false)) /\
    entry !! "output_path"
      = Some (dict_get compression_result "output_path" (VStr "")).
Proof.
  intros Hpath.
  assert (exists name,
            basename_of (dict_get compression_result "output_path" (VStr ""))
            = inr name) as (name & Hname).
  { unfold dict_get. destruct Hpath as [->|(p & ->)]; eexists; reflexivity. }
  unfold make_entry. rewrite Hname.
  eexists. split; [reflexivity|]. repeat split.
Qed.

(** [add_entry] with an entry that could be built: append, trim, write *)
Lemma add_entry_built (timestamp : string) (compression_result : dict)
  (input_path : string) (self : manager) (w : world) (entry : dict) :
  make_entry timestamp compression_result input_path = inr entry ->
  add_entry json_dump timestamp compression_result input_path self w
  = let kept := PyList.slice_from (history self ++ [entry]) (- max_items self) in
    (Manager (history_file self) (max_items self) kept,
     if creatable (history_file self)
     then write_file w (history_file self) (json_dump kept) else w).
Proof.
  intros Hentry. unfold add_entry, save_history. rewrite Hentry.
  cbn [history max_items history_file].
  destruct (creatable (history_file self)); reflexivity.
Qed.


(** X13. Every result of [compress_image], success or failure, can be
    recorded: [add_entry] does not give up on it, and the newest entry of
    the history then carries the result's [success] and [output_path]
    (the empty string for a failure) and the input path. *)
Theorem add_entry_records_engine_result (timestamp : string)
  input_path output_path quality new_size maintain_aspect progress_callback
  (self : manager) (w w' : world) (r : dict) :
  1 <= max_items self ->
  compress_image input_path output_path quality new_size maintain_aspect
    progress_callback w = (w', Return r) ->
  exists entry success,
    last (history (add_entry json_dump timestamp r input_path self w').1)
      = Some entry /\
    r !! "success" = Some success /\
    entry !! "success" = Some success /\
    entry !! "input_path" = Some (VStr input_path) /\
    entry !! "output_path" = Some (dict_get r "output_path" (VStr "")).
Proof.
  intros Hmax Hrun.
  destruct (compress_image_keys _ _ _ _ _ _ _ _ _ Hrun)
    as ((success & Hs) & Hpath).
  destruct (make_entry_defined timestamp r input_path Hpath)
    as (entry & Hentry & _ & Hei & Hes & Heo).
  exists entry, success.
  rewrite (add_entry_built _ _ _ self w' _ Hentry). cbv zeta.
  cbn [fst history].
  split; [apply slice_from_last_snoc; exact Hmax|].
  split; [exact Hs|].
  split; [rewrite Hes; unfold dict_get; rewrite Hs; reflexivity|].
  split; [exact Hei | exact Heo].
Qed.

(** X14. With [max_items = 0] the bound is off: [history[-0:]] is the whole
    list, so [add_entry] keeps every entry and the history grows by one
    each time. *)
Theorem add_entry_unbounded_at_zero (timestamp : string)
  (compression_result : dict) (input_path : string) (self : manager)
  (w : world) :
  max_items self = 0 ->
  (compression_result !! "output_path" = None \/
   exists p, compression_result !! "output_path" = Some (VStr p)) ->
  exists entry,
    make_entry timestamp compression_result input_path = inr entry /\
    history (add_entry json_dump timestamp compression_result input_path
               self w).1
    = (history self ++ [entry])%list.
Proof.
  intros Hmax Hpath.
  destruct (make_entry_defined timestamp compression_result input_path Hpath)
    as (entry & Hentry & _).
  exists entry. split; [exact Hentry|].
  rewrite (add_entry_built _ _ _ self w _ Hentry). cbv zeta. cbn [fst history].
  rewrite Hmax. apply slice_from_zero.
Qed.


(** X16. Removing the entry that was just added gives back the history:
    when the history had room ([len < max_items]), [add_entry] appends the
    entry without dropping one, and [remove_entry] at the last index then
    leaves the entries as they were before. *)
Theorem remove_added_entry_restores (timestamp : string)
  (compression_result : dict) (input_path : string) (self : manager)
  (w : world) :
  Z.of_nat (length (history self)) < max_items self ->
  (compression_result !! "output_path" = None \/
   exists p, compression_result !! "output_path" = Some (VStr p)) ->
  exists entry,
    make_entry timestamp compression_result input_path = inr entry /\
    let '(self1, w1) :=
      add_entry json_dump timestamp compression_result input_path self w in
    history self1 = (history self ++ [entry])%list /\
    let '(self2, _, _) :=
      remove_entry json_dump (Z.of_nat (length (history self))) self1 w1 in
    history self2 = history self.
Proof.
  intros Hroom Hpath.
  destruct (make_entry_defined timestamp compression_result input_path Hpath)
    as (entry & Hentry & _).
  exists entry. split; [exact Hentry|].
  rewrite (add_entry_built _ _ _ self w _ Hentry). cbv zeta.
  rewrite slice_from_last_fits by (rewrite ?length_app; simpl; lia).
  split; [reflexivity|].
  unfold remove_entry, save_history. cbn [history max_items history_file].
  rewrite (proj2 (andb_true_iff _ _))
    by (split; [apply Z.leb_le|apply Z.ltb_lt]; rewrite ?length_app; simpl; lia).
  assert (delete (Z.to_nat (Z.of_nat (length (history self))))
            (history self ++ [entry])%list = history self) as ->.
  { rewrite Nat2Z.id.
    rewrite delete_take_drop.
    rewrite take_app_length.
    rewrite drop_ge by (rewrite length_app; simpl; lia). apply app_nil_r. }
  rewrite slice_from_last_fits by lia.
  destruct (creatable (history_file self)); reflexivity.
Qed.

(** X17. [get_recent_entries(count)] for [count >= 1] is the last [count]
    entries (all of them when there are fewer), and [get_history(count)]
    is the same list; but [count = 0] gives the whole history, not an empty
    list, in both. *)
Theorem get_recent_entries_count (self : manager) (count : Z) :
  (1 <= count ->
   get_recent_entries self count
     = drop (length (history self) - Z.to_nat count) (history self) /\
   Z.of_nat (length (get_recent_entries self count))
     = Z.min count (Z.of_nat (length (history self))) /\
   get_history self (Some count) = get_recent_entries self count) /\
  get_recent_entries self 0 = history self /\
  get_history self (Some 0) = history self /\
  get_history self None = history self.
Proof.
  unfold get_recent_entries, get_history. split; [|split; [|split]].
  - intros Hc. split; [apply slice_from_last, Hc|].
    split; [apply slice_from_last_length, Hc|].
    destruct (count =? 0) eqn:Hz; [lia | reflexivity].
  - apply slice_from_zero.
  - reflexivity.
  - reflexivity.
Qed.

End History.

(** * The handler, the engine and the history on concrete inputs *)

Module Sessions.
Import FormatHandler CompressionEngine HistoryManager.

(** The requested name and its PNG sibling are free on the demo disk *)
Lemma names_free :
  path_exists Demo.disk (generate_unique_filename Demo.disk "out/photo.jpg")
    = false /\
  path_exists Demo.disk
    (generate_unique_filename Demo.disk
       (PyStr.replace (generate_unique_filename Demo.disk "out/photo.jpg")
          (PyStr.lower (PosixPath.splitext "out/photo.jpg").2) ".png"))
    = false.
Proof. split; by_evaluation. Qed.

(** After a first save a copy name and its PNG sibling are free *)
Lemma names_free_after_save :
  path_exists Demo.disk_after_save
    (generate_unique_filename Demo.disk_after_save "out/photo.jpg") = false /\
  path_exists Demo.disk_after_save
    (generate_unique_filename Demo.disk_after_save
       (PyStr.replace
          (generate_unique_filename Demo.disk_after_save "out/photo.jpg")
          (PyStr.lower (PosixPath.splitext "out/photo.jpg").2) ".png"))
    = false.
Proof. split; by_evaluation. Qed.

Lemma first_copy_free :
  path_exists Demo.disk_after_save
    (copy_path (PosixPath.dirname "out/photo.jpg")
       (PosixPath.splitext (PosixPath.basename "out/photo.jpg")).1
       (PosixPath.splitext (PosixPath.basename "out/photo.jpg")).2 1) = false.
Proof. by_evaluation. Qed.

Lemma save_first :
  @save_image_universal Demo.backend Demo.rgb_image "out/photo.jpg" 85 Demo.disk
  = (Demo.disk_after_save, Return (Demo.saved "out/photo.jpg")).
Proof. by_evaluation. Qed.

Lemma save_second :
  @save_image_universal Demo.backend Demo.rgb_image "out/photo.jpg" 60
    Demo.disk_after_save
  = (write_file Demo.disk_after_save "out/photo_copy1.jpg" Demo.jpeg_data,
     Return (Demo.saved "out/photo_copy1.jpg")).
Proof. by_evaluation. Qed.

Lemma save_pdf_without_reportlab :
  @save_image_universal Demo.backend Demo.rgb_image "out/doc.pdf" 85 Demo.disk
  = (Demo.disk, Return Demo.pdf_failure).
Proof. by_evaluation. Qed.

Lemma saved_lookups (p : string) :
  Demo.saved p !! "success" = Some (VBool true) /\
  Demo.saved p !! "output_path" = Some (VStr p).
Proof. split; reflexivity. Qed.

(** No input of the batch has a target in the format table *)
Lemma misspelled_targets (input_path : string) :
  input_path ∈ ["in/photo.png"; "in/gray.png"] ->
  target_extension "out" ".jpgg" input_path ∉ SUPPORTED_FORMATS.
Proof.
  intros Hin.
  repeat (apply elem_of_cons in Hin as [->|Hin]);
    [ compute_done .. | apply elem_of_nil in Hin; contradiction ].
Qed.

(** The redirection to PNG replaces the lower-cased extension wherever the
    unique path has it: an extension in capitals stays *)
Lemma capital_extension_kept :
  @save_image_universal Demo.backend Demo.rgb_image "out/ICON.ICNS" 85 Demo.disk
  = (write_file Demo.disk "out/ICON.ICNS" Demo.png_data,
     Return {[ "success" := VBool true;
               "fallback" := VBool true;
               "original_format" := VStr ".icns";
               "final_format" := VStr ".png";
               "output_path" := VStr "out/ICON.ICNS";
               "message" :=
                 VStr "⚠️ .ICNS no soportado para escritura. Convertido a PNG." ]}).
Proof. by_evaluation. Qed.

(** The [repr] of a path with an apostrophe, and of one with a backslash *)
Lemma repr_of_paths :
  PyStr.repr "in/o'brien.png"
    = String "034"%char ("in/o'brien.png" ++ String "034"%char "") /\
  PyStr.repr "in\none.png" = "'in\\none.png'".
Proof. split; reflexivity. Qed.

Lemma converted_output_path :
  Demo.converted 4 3 !! "output_path" = None \/
  exists p, Demo.converted 4 3 !! "output_path" = Some (VStr p).
Proof. right. exists "out/photo.jpg". reflexivity. Qed.

End Sessions.

Lemma generate_unique_filename_fresh_witness :
  path_exists Demo.disk_after_save
    (generate_unique_filename Demo.disk_after_save "out/photo.jpg") = false.
Proof.
  apply generate_unique_filename_fresh. right. exists 1.
  split; [lia | exact Sessions.first_copy_free].
Defined.

Lemma save_image_universal_twice_witness :
  "out/photo.jpg" <> "out/photo_copy1.jpg" /\
  path_exists
    (write_file Demo.disk_after_save "out/photo_copy1.jpg" Demo.jpeg_data)
    "out/photo.jpg" = true.
Proof.
  destruct (@save_image_universal_twice Demo.backend Demo.rgb_image
              Demo.rgb_image "out/photo.jpg" 85 60 Demo.disk
              Demo.disk_after_save
              (write_file Demo.disk_after_save "out/photo_copy1.jpg"
                 Demo.jpeg_data)
              (Demo.saved "out/photo.jpg") (Demo.saved "out/photo_copy1.jpg")
              "out/photo.jpg" "out/photo_copy1.jpg"
              Sessions.save_first
              (proj1 (Sessions.saved_lookups _))
              (proj2 (Sessions.saved_lookups _))
              (proj1 Sessions.names_free_after_save)
              (proj2 Sessions.names_free_after_save)
              Sessions.save_second
              (proj1 (Sessions.saved_lookups _))
              (proj2 (Sessions.saved_lookups _)))
    as (Hne & Hfirst & _).
  split; [exact Hne | exact Hfirst].
Defined.

Lemma specialized_formats_never_fall_back_witness :
  Demo.pdf_failure !! "fallback" = None /\
  Demo.pdf_failure !! "success" = Some (VBool false).
Proof.
  destruct (@specialized_formats_never_fall_back Demo.backend Demo.rgb_image
              "out/doc.pdf" 85 Demo.disk Demo.disk Demo.pdf_failure
              ltac:(compute_done) Sessions.save_pdf_without_reportlab)
    as (Hnone & _ & Hfail).
  split; [exact Hnone|].
  apply Hfail. left. split; reflexivity.
Defined.

Lemma native_jpeg_png_written_witness :
  @FormatHandler.save_image_universal Demo.backend Demo.rgb_image
    "out/photo.jpg" 85 Demo.disk
  = (write_file Demo.disk
       (generate_unique_filename Demo.disk "out/photo.jpg") Demo.jpeg_data,
     Return {[ "success" := VBool true;
               "output_path" :=
                 VStr (generate_unique_filename Demo.disk "out/photo.jpg");
               "message" :=
                 VStr ("✅ Guardado como "
                       ++ PyStr.upper
                            (PyStr.lower
                               (PosixPath.splitext "out/photo.jpg").2)) ]}).
Proof.
  apply (@native_jpeg_png_written Demo.backend Demo.rgb_image Demo.rgb_image
           "out/photo.jpg" 85 Demo.disk Demo.jpeg_handler Demo.jpeg_data).
  - reflexivity.
  - left. split; [compute_done|]. split; [reflexivity|]. split; reflexivity.
Defined.

Lemma unrecognized_iff_unsupported_witness :
  Demo.saved "out/photo.jpg" !! "message"
  <> Some (VStr ("❌ Formato "
                 ++ PyStr.upper (PyStr.lower (PosixPath.splitext "out/photo.jpg").2)
                 ++ " no reconocido")).
Proof.
  intros Hmessage.
  apply (@unrecognized_iff_unsupported Demo.backend Demo.rgb_image
           "out/photo.jpg" 85 Demo.disk Demo.disk_after_save
           (Demo.saved "out/photo.jpg") Sessions.save_first) in Hmessage.
  apply Hmessage. compute_done.
Defined.


Lemma compress_image_atomic_witness :
  exists w' r,
    @CompressionEngine.compress_image Demo.backend "in/photo.png"
      "out/photo.jpg" 85 None true None Demo.disk = (w', Return r) /\
    (w' = Demo.disk \/
     exists p data,
       path_exists Demo.disk p = false /\ w' = write_file Demo.disk p data).
Proof.
  destruct (@compress_image_atomic Demo.backend "in/photo.png"
              "out/photo.jpg" 85 None true None Demo.disk
              (proj1 Sessions.names_free) (proj2 Sessions.names_free))
    as (w' & r & Hrun & Hworld & _).
  exists w', r. split; [exact Hrun | exact Hworld].
Defined.

Lemma get_image_info_agrees_witness :
  exists info,
    @CompressionEngine.get_image_info Demo.backend (fun _ => VStr "PNG")
      "in/photo.png" Demo.disk = (Demo.disk, Return info) /\
    info !! "dimensions" = Demo.converted 4 3 !! "original_dimensions" /\
    info !! "file_size" = Demo.converted 4 3 !! "original_size".
Proof.
  destruct (@get_image_info_agrees Demo.backend (fun _ => VStr "PNG")
              _ _ _ _ _ _ _ _ _ Runs.convert_plain eq_refl)
    as (info & Hrun & _ & Hdim & Hsize).
  exists info. split; [exact Hrun|]. split; [exact Hdim | exact Hsize].
Defined.

Lemma batch_unknown_format_writes_nothing_witness :
  exists results,
    @CompressionEngine.compress_multiple_images Demo.backend
      ["in/photo.png"; "in/gray.png"] "out" ".jpgg" 85 None true None None
      Demo.disk = (Demo.disk, Return results) /\
    length results = 2%nat.
Proof.
  destruct (@batch_unknown_format_writes_nothing Demo.backend
              ["in/photo.png"; "in/gray.png"] "out" ".jpgg" 85 None true
              None None Demo.disk Sessions.misspelled_targets I)
    as (results & Hrun & Hlen & _).
  exists results. split; [exact Hrun | exact Hlen].
Defined.


Lemma add_entry_records_engine_result_witness :
  exists entry,
    last (HistoryManager.history
            (@HistoryManager.add_entry Demo.backend Demo.json_dump
               "2024-05-01T10:00:00" (Demo.converted 4 3) "in/photo.png"
               Demo.manager
               (write_file Demo.disk "out/photo.jpg" Demo.jpeg_data)).1)
      = Some entry /\
    entry !! "input_path" = Some (VStr "in/photo.png").
Proof.
  destruct (@add_entry_records_engine_result Demo.backend Demo.json_dump
              "2024-05-01T10:00:00" _ _ _ _ _ _ Demo.manager _ _ _
              ltac:(cbn; lia) Runs.convert_plain)
    as (entry & success & Hlast & _ & _ & Hinput & _).
  exists entry. split; [exact Hlast | exact Hinput].
Defined.

Lemma add_entry_unbounded_at_zero_witness :
  exists entry,
    HistoryManager.history
      (@HistoryManager.add_entry Demo.backend Demo.json_dump
         "2024-05-01T10:00:00" (Demo.converted 4 3) "in/photo.png"
         Demo.unbounded_manager Demo.disk_after_save).1
    = [Demo.earlier "a.png"; Demo.earlier "b.png"; entry].
Proof.
  destruct (@add_entry_unbounded_at_zero Demo.backend Demo.json_dump
              "2024-05-01T10:00:00" (Demo.converted 4 3) "in/photo.png"
              Demo.unbounded_manager Demo.disk_after_save eq_refl
              Sessions.converted_output_path) as (entry & _ & Hall).
  exists entry. exact Hall.
Defined.

Lemma remove_added_entry_restores_witness :
  exists entry,
    HistoryManager.make_entry "2024-05-01T10:00:00" (Demo.converted 4 3)
      "in/photo.png" = inr entry /\
    let '(self1, w1) :=
      @HistoryManager.add_entry Demo.backend Demo.json_dump
        "2024-05-01T10:00:00" (Demo.converted 4 3) "in/photo.png"
        Demo.roomy_manager Demo.disk_after_save in
    HistoryManager.history self1
      = (HistoryManager.history Demo.roomy_manager ++ [entry])%list /\
    let '(self2, _, _) :=
      @HistoryManager.remove_entry Demo.backend Demo.json_dump
        (Z.of_nat (length (HistoryManager.history Demo.roomy_manager)))
        self1 w1 in
    HistoryManager.history self2 = HistoryManager.history Demo.roomy_manager.
Proof.
  exact (@remove_added_entry_restores Demo.backend Demo.json_dump
           "2024-05-01T10:00:00" (Demo.converted 4 3) "in/photo.png"
           Demo.roomy_manager Demo.disk_after_save ltac:(cbn; lia)
           Sessions.converted_output_path).
Defined.

